(** * Asynchronous IoT Hub clients (azure/iot/device/iothub/aio/async_clients.py)

    A shallow embedding of the three client classes of [async_clients.py]:
    [GenericIoTHubClient], [IoTHubDeviceClient] and [IoTHubModuleClient].

    The coroutines of the clients are straight-line programs over a small
    signature of effects (logging, reading a feature flag, the callback
    bridge, the inbox manager, the heap of [Message] objects).  They are
    written as terms of a free monad, [coro], and executed by [run] against a
    [World] until they return, raise or suspend.  What the transport does in
    between (firing callbacks, delivering events, reporting state changes) is
    a function on worlds, [outside_step]. *)

From Stdlib Require Import ZArith.
From stdpp Require Import base option list gmap strings relations.

Local Open Scope string_scope.
Local Open Scope list_scope.

(** ** Python values *)

(** References to [Message] objects and to awaitable callbacks. *)
Abbreviation loc := nat (only parsing).
Abbreviation cb_ref := nat (only parsing).

(** The features named by [pipeline.constant] that the clients use. *)
Inductive feature := METHODS | C2D_MSG | INPUT_MSG.

Global Instance feature_eq_dec : EqDecision feature.
Proof. solve_decision. Defined.

(** Modelled from the spec: [pipeline.constant] is not among the sources, so
    the text of a feature name (used in log lines only) is the name of its
    constant. *)
Definition feature_text (f : feature) : string :=
  match f with
  | METHODS => "METHODS"
  | C2D_MSG => "C2D_MSG"
  | INPUT_MSG => "INPUT_MSG"
  end.

(** What a caller or the transport can hand to the client.  A [Message]
    instance is a reference into the heap of the world, so that two holders
    of the same object see each other's assignments. *)
Inductive pyobj :=
| PyNone
| PyStr (s : string)
| PyInt (n : Z)
| PyMethodRequest (request_id name : string)
| PyMessage (l : loc).

Global Instance pyobj_eq_dec : EqDecision pyobj.
Proof. solve_decision. Defined.

(** [isinstance(message, Message)] *)
Definition isinstance_Message (o : pyobj) : bool :=
  match o with PyMessage _ => true | _ => false end.

(** Modelled from the spec: [models.Message] is not among the sources.  The
    canonical envelope carries the payload it was built from and the routing
    attribute [output_name], which a new envelope does not have yet. *)
Record Message := { data : pyobj; output_name : option string }.

Definition Message__init__ (d : pyobj) : Message :=
  {| data := d; output_name := None |}.

Definition with_output_name (name : string) (m : Message) : Message :=
  {| data := data m; output_name := Some name |}.

Inductive exn := Error (what : string).

(** ** The callback bridge (async_adapter) *)

(** Modelled from the spec: [common.async_adapter] is not among the sources.
    A completion signal is pending or fulfilled, once, with the outcome the
    callback reported. *)
Inductive outcome := Success | Failure (e : exn).
Inductive signal := Pending | Fulfilled (o : outcome).

(** An [AwaitableCallback]: the wrapped [sync_callback] (every one in this
    file only writes one log line, kept here) and its completion signal. *)
Record AwaitableCallback := { sync_callback : string; future : signal }.

(** ** The pipeline (transport collaborator) *)

(** The callback-taking entry points of the pipeline the clients call. *)
Inductive pipeline_call :=
| call_connect
| call_disconnect
| call_send_d2c_message (message : pyobj)
| call_send_method_response (method_response : pyobj)
| call_enable_feature (f : feature)
| call_send_output_event (message : pyobj).

(** One invocation as the pipeline received it: the entry point with its
    argument, the callback passed along, and, when the argument is a
    [Message] object, what that object held at the time of the call. *)
Record invocation :=
  { op : pipeline_call; callback : cb_ref; envelope : option Message }.

(** Modelled from the spec: the transport behind the pipeline is not among
    the sources.  By the time the wrapped call hands control back it has
    fired the callback (with an outcome) or has not fired it yet. *)
Inductive response := not_yet | calls_back (o : outcome).

(** What can be assigned to a handler slot of the pipeline: the bound
    methods of this client and of its inbox manager, or a callable that
    belongs to somebody else. *)
Inductive handler :=
| h_on_state_change
| h_route_method_request
| h_route_c2d_message
| h_route_input_message
| h_foreign (id : nat).

Global Instance handler_eq_dec : EqDecision handler.
Proof. solve_decision. Defined.

(** Modelled from the spec: the pipeline is an external collaborator.  It
    exposes the per-feature flag, the assignable handler slots, and the
    callback-taking entry points; [respond] is how the transport behind it
    reacts to a call, [received] the calls it has got so far. *)
Record Pipeline := {
  feature_enabled : feature -> bool;
  on_connected : option handler;
  on_disconnected : option handler;
  on_method_request_received : option handler;
  on_c2d_message_received : option handler;
  on_input_message_received : option handler;
  respond : pipeline_call -> response;
  received : list invocation;
}.

(** ** The inbox manager *)

(** Modelled from the spec: [inbox_manager.InboxManager] and
    [aio.async_inbox.AsyncClientInbox] are not among the sources.  An inbox is
    a FIFO queue; the manager owns one generic and the named method-request
    inboxes, the single c2d inbox and the per-input inboxes. *)
Record InboxManager := {
  generic_method_request_inbox : list pyobj;
  named_method_request_inboxes : gmap string (list pyobj);
  c2d_message_inbox : list pyobj;
  input_message_inboxes : gmap string (list pyobj);
}.

(** Modelled from the spec: [InboxManager(inbox_type=AsyncClientInbox)], the
    manager as it is created, every inbox empty. *)
Definition InboxManager__init__ : InboxManager :=
  {| generic_method_request_inbox := [];
     named_method_request_inboxes := ∅;
     c2d_message_inbox := [];
     input_message_inboxes := ∅ |}.

(** An inbox object, by the place the manager keeps it in. *)
Inductive inbox :=
| GenericMethodInbox
| NamedMethodInbox (method_name : string)
| C2DInbox
| InputInbox (input_name : string).

Definition queue (i : inbox) (im : InboxManager) : list pyobj :=
  match i with
  | GenericMethodInbox => generic_method_request_inbox im
  | NamedMethodInbox n => default [] (named_method_request_inboxes im !! n)
  | C2DInbox => c2d_message_inbox im
  | InputInbox n => default [] (input_message_inboxes im !! n)
  end.

Definition set_queue (i : inbox) (q : list pyobj) (im : InboxManager) : InboxManager :=
  match i with
  | GenericMethodInbox =>
      {| generic_method_request_inbox := q;
         named_method_request_inboxes := named_method_request_inboxes im;
         c2d_message_inbox := c2d_message_inbox im;
         input_message_inboxes := input_message_inboxes im |}
  | NamedMethodInbox n =>
      {| generic_method_request_inbox := generic_method_request_inbox im;
         named_method_request_inboxes := <[n := q]> (named_method_request_inboxes im);
         c2d_message_inbox := c2d_message_inbox im;
         input_message_inboxes := input_message_inboxes im |}
  | C2DInbox =>
      {| generic_method_request_inbox := generic_method_request_inbox im;
         named_method_request_inboxes := named_method_request_inboxes im;
         c2d_message_inbox := q;
         input_message_inboxes := input_message_inboxes im |}
  | InputInbox n =>
      {| generic_method_request_inbox := generic_method_request_inbox im;
         named_method_request_inboxes := named_method_request_inboxes im;
         c2d_message_inbox := c2d_message_inbox im;
         input_message_inboxes := <[n := q]> (input_message_inboxes im) |}
  end.

(** Modelled from the spec: lazy creation, an inbox that does not exist yet
    is created empty on first access. *)
Definition ensure (i : inbox) (im : InboxManager) : InboxManager :=
  match i with
  | NamedMethodInbox n =>
      match named_method_request_inboxes im !! n with
      | Some _ => im
      | None => set_queue i [] im
      end
  | InputInbox n =>
      match input_message_inboxes im !! n with
      | Some _ => im
      | None => set_queue i [] im
      end
  | _ => im
  end.

(** Modelled from the spec: [get_method_request_inbox(method_name=None)], the
    inbox of that name, created on first access; the generic one without a
    name. *)
Definition get_method_request_inbox (method_name : option string)
    (im : InboxManager) : inbox * InboxManager :=
  match method_name with
  | Some n => (NamedMethodInbox n, ensure (NamedMethodInbox n) im)
  | None => (GenericMethodInbox, im)
  end.

(** Modelled from the spec: [get_c2d_message_inbox()], the one shared inbox
    of the category. *)
Definition get_c2d_message_inbox (im : InboxManager) : inbox * InboxManager :=
  (C2DInbox, im).

(** Modelled from the spec: [get_input_message_inbox(input_name)], the inbox
    of that input, created on first access. *)
Definition get_input_message_inbox (input_name : string)
    (im : InboxManager) : inbox * InboxManager :=
  (InputInbox input_name, ensure (InputInbox input_name) im).

(** Modelled from the spec: [put(item)] appends to the tail. *)
Definition put (i : inbox) (item : pyobj) (im : InboxManager) : InboxManager :=
  set_queue i (queue i im ++ [item]) im.

(** Modelled from the spec: [route_method_request] puts a request into the
    inbox of its method name when there is one, into the generic inbox
    otherwise. *)
Definition route_method_request (request : pyobj) (im : InboxManager) : InboxManager :=
  match request with
  | PyMethodRequest _ name =>
      match named_method_request_inboxes im !! name with
      | Some _ => put (NamedMethodInbox name) request im
      | None => put GenericMethodInbox request im
      end
  | _ => put GenericMethodInbox request im
  end.

(** Modelled from the spec: [route_c2d_message] puts into the c2d inbox. *)
Definition route_c2d_message (message : pyobj) (im : InboxManager) : InboxManager :=
  put C2DInbox message im.

(** Modelled from the spec: [route_input_message] puts into the inbox of the
    input the message came in on. *)
Definition route_input_message (input_name : string) (message : pyobj)
    (im : InboxManager) : InboxManager :=
  put (InputInbox input_name) message (ensure (InputInbox input_name) im).

(** Modelled from the spec: [clear_all_method_requests()] is [clear()] on
    every inbox of the method-request category, the generic one included;
    the inboxes themselves stay. *)
Definition clear_all_method_requests (im : InboxManager) : InboxManager :=
  {| generic_method_request_inbox := [];
     named_method_request_inboxes := (λ _, []) <$> named_method_request_inboxes im;
     c2d_message_inbox := c2d_message_inbox im;
     input_message_inboxes := input_message_inboxes im |}.

(** ** The world a client runs in *)

(** The attributes [__init__] gives a client object. *)
Record Client := {
  _pipeline : Pipeline;
  _inbox_manager : InboxManager;
}.

Record World := {
  self : Client;
  heap : list Message;
  callbacks : list AwaitableCallback;
  log : list string;
}.

Definition pipeline (w : World) : Pipeline := _pipeline (self w).
Definition inbox_manager (w : World) : InboxManager := _inbox_manager (self w).

Definition set_inbox_manager (im : InboxManager) (w : World) : World :=
  {| self := {| _pipeline := pipeline w; _inbox_manager := im |};
     heap := heap w; callbacks := callbacks w; log := log w |}.

Definition set_heap (h : list Message) (w : World) : World :=
  {| self := self w; heap := h; callbacks := callbacks w; log := log w |}.

Definition set_callbacks (c : list AwaitableCallback) (w : World) : World :=
  {| self := self w; heap := heap w; callbacks := c; log := log w |}.

(** The completion signal of a callback. *)
Definition signal_of (cb : cb_ref) (w : World) : option signal :=
  future <$> callbacks w !! cb.

(** [logger.info(msg)] *)
Definition logger_info (msg : string) (w : World) : World :=
  {| self := self w; heap := heap w; callbacks := callbacks w;
     log := log w ++ [msg] |}.

Definition record_call (i : invocation) (w : World) : World :=
  {| self :=
       {| _pipeline :=
            {| feature_enabled := feature_enabled (pipeline w);
               on_connected := on_connected (pipeline w);
               on_disconnected := on_disconnected (pipeline w);
               on_method_request_received := on_method_request_received (pipeline w);
               on_c2d_message_received := on_c2d_message_received (pipeline w);
               on_input_message_received := on_input_message_received (pipeline w);
               respond := respond (pipeline w);
               received := received (pipeline w) ++ [i] |};
          _inbox_manager := inbox_manager w |};
     heap := heap w; callbacks := callbacks w; log := log w |}.

(** The [Message] object a value refers to, if it is one. *)
Definition deref (h : list Message) (o : pyobj) : option Message :=
  match o with PyMessage l => h !! l | _ => None end.

Definition argument (c : pipeline_call) : pyobj :=
  match c with
  | call_send_d2c_message m | call_send_method_response m
  | call_send_output_event m => m
  | _ => PyNone
  end.

(** Modelled from the spec: the transport fires a callback of the bridge.
    The wrapped [sync_callback] runs and the signal is fulfilled with the
    reported outcome; a signal that is already fulfilled keeps its result. *)
Definition fire (cb : cb_ref) (o : outcome) (w : World) : World :=
  match callbacks w !! cb with
  | Some {| sync_callback := msg; future := Pending |} =>
      logger_info msg
        (set_callbacks
           (<[cb := {| sync_callback := msg; future := Fulfilled o |}]> (callbacks w)) w)
  | _ => w
  end.

(** Modelled from the spec: [emulate_async(fn)(args, callback=cb)].  The
    call runs in a worker context and its outcome reaches the caller through
    the completion signal only (an operation that raises at once fulfils the
    signal with that failure); by the time control is back the transport has
    fired the callback or not. *)
Definition dispatch (c : pipeline_call) (cb : cb_ref) (w : World) : World :=
  let w1 :=
    record_call {| op := c; callback := cb; envelope := deref (heap w) (argument c) |} w in
  match respond (pipeline w) c with
  | not_yet => w1
  | calls_back o => fire cb o w1
  end.

(** ** Coroutines *)

(** The steps a coroutine of the clients takes, each with the type of what
    it evaluates to. *)
Inductive clientE : Type → Type :=
| LoggerInfo (msg : string) : clientE unit
| FeatureEnabled (f : feature) : clientE bool
| NewMessage (d : pyobj) : clientE pyobj
| SetOutputName (message : pyobj) (name : string) : clientE unit
| NewAwaitableCallback (sync_callback : string) : clientE cb_ref
| EmulateAsync (c : pipeline_call) (cb : cb_ref) : clientE unit
| Completion (cb : cb_ref) : clientE unit
| GetMethodRequestInbox (method_name : option string) : clientE inbox
| GetC2DMessageInbox : clientE inbox
| GetInputMessageInbox (input_name : string) : clientE inbox
| InboxGet (i : inbox) : clientE pyobj.

Inductive coro (R : Type) : Type :=
| Return (r : R)
| Step {X : Type} (e : clientE X) (k : X → coro R).

Arguments Return {R} r.
Arguments Step {R X} e k.

Fixpoint bind {A B : Type} (p : coro A) (f : A → coro B) : coro B :=
  match p with
  | Return a => f a
  | Step e k => Step e (λ x, bind (k x) f)
  end.

Definition perform {X : Type} (e : clientE X) : coro X := Step e Return.

Global Instance coro_ret : MRet coro := @Return.
Global Instance coro_bind : MBind coro := λ A B f p, bind p f.

(** Where a coroutine can suspend: on [callback.completion()] and on
    [inbox.get()]. *)
Inductive suspension :=
| on_completion (cb : cb_ref)
| on_inbox_get (i : inbox).

Inductive reply (X : Type) : Type :=
| Resumes (x : X) (w : World)
| Throws (e : exn) (w : World)
| Suspends (s : suspension).

Arguments Resumes {X} x w.
Arguments Throws {X} e w.
Arguments Suspends {X} s.

(** One step against the world.  Modelled from the spec where the step is
    one of the callback bridge or of an inbox, neither among the sources:
    [completion()] suspends until the signal is fulfilled and then gives
    control back or raises the failure the signal holds; [get()] suspends
    while the inbox is empty and otherwise takes the oldest item off it. *)
Definition handle {X : Type} (e : clientE X) (w : World) : reply X :=
  match e in clientE X return reply X with
  | LoggerInfo msg => Resumes tt (logger_info msg w)
  | FeatureEnabled f => Resumes (feature_enabled (pipeline w) f) w
  | NewMessage d =>
      Resumes (PyMessage (length (heap w))) (set_heap (heap w ++ [Message__init__ d]) w)
  | SetOutputName message name =>
      match message with
      | PyMessage l => Resumes tt (set_heap (alter (with_output_name name) l (heap w)) w)
      | _ => Throws (Error "AttributeError") w
      end
  | NewAwaitableCallback msg =>
      Resumes (length (callbacks w))
        (set_callbacks (callbacks w ++ [{| sync_callback := msg; future := Pending |}]) w)
  | EmulateAsync c cb => Resumes tt (dispatch c cb w)
  | Completion cb =>
      match signal_of cb w with
      | Some (Fulfilled Success) => Resumes tt w
      | Some (Fulfilled (Failure e)) => Throws e w
      | _ => Suspends (on_completion cb)
      end
  | GetMethodRequestInbox method_name =>
      let '(i, im) := get_method_request_inbox method_name (inbox_manager w) in
      Resumes i (set_inbox_manager im w)
  | GetC2DMessageInbox =>
      let '(i, im) := get_c2d_message_inbox (inbox_manager w) in
      Resumes i (set_inbox_manager im w)
  | GetInputMessageInbox input_name =>
      let '(i, im) := get_input_message_inbox input_name (inbox_manager w) in
      Resumes i (set_inbox_manager im w)
  | InboxGet i =>
      match queue i (inbox_manager w) with
      | item :: q => Resumes item (set_inbox_manager (set_queue i q (inbox_manager w)) w)
      | [] => Suspends (on_inbox_get i)
      end
  end.

(** How a coroutine stands when control is back with the scheduler: it has
    returned, it has raised, or it is suspended (then [rest] is what remains
    of it, the suspended step first). *)
Inductive result (R : Type) : Type :=
| Returned (r : R) (w : World)
| Raised (e : exn) (w : World)
| Suspended (s : suspension) (w : World) (rest : coro R).

Arguments Returned {R} r w.
Arguments Raised {R} e w.
Arguments Suspended {R} s w rest.

Fixpoint run {R : Type} (p : coro R) (w : World) : result R :=
  match p with
  | Return r => Returned r w
  | Step e k =>
      match handle e w with
      | Resumes x w' => run (k x) w'
      | Throws e w' => Raised e w'
      | Suspends s => Suspended s w (Step e k)
      end
  end.

Definition world_of {R : Type} (r : result R) : World :=
  match r with
  | Returned _ w | Raised _ w | Suspended _ w _ => w
  end.

(** The calls the pipeline got while a coroutine ran from [w]. *)
Definition calls_since (w : World) (w' : World) : list invocation :=
  drop (length (received (pipeline w))) (received (pipeline w')).

(** ** The clients *)

Module GenericIoTHubClient.

(** [AbstractIoTHubClient.__init__] keeps the pipeline; the generic client
    then creates its inbox manager and assigns three handler slots. *)
Definition __init__ (pipeline : Pipeline) : Client :=
  {| _pipeline :=
       {| feature_enabled := feature_enabled pipeline;
          on_connected := Some h_on_state_change;
          on_disconnected := Some h_on_state_change;
          on_method_request_received := Some h_route_method_request;
          on_c2d_message_received := on_c2d_message_received pipeline;
          on_input_message_received := on_input_message_received pipeline;
          respond := respond pipeline;
          received := received pipeline |};
     _inbox_manager := InboxManager__init__ |}.

Definition _on_disconnected (w : World) : World :=
  logger_info "Cleared all pending method requests due to disconnect"
    (set_inbox_manager (clear_all_method_requests (inbox_manager w)) w).

Definition _on_state_change (new_state : string) (w : World) : World :=
  let w := logger_info ("Connection State - " +:+ new_state) w in
  if String.eqb new_state "disconnected" then _on_disconnected w else w.

Definition connect : coro unit :=
  perform (LoggerInfo "Connecting to Hub...");;
  callback ← perform (NewAwaitableCallback "Successfully connected to Hub");
  perform (EmulateAsync call_connect callback);;
  perform (Completion callback).

Definition disconnect : coro unit :=
  perform (LoggerInfo "Disconnecting from Hub...");;
  callback ← perform (NewAwaitableCallback "Successfully disconnected from Hub");
  perform (EmulateAsync call_disconnect callback);;
  perform (Completion callback).

Definition send_d2c_message (message : pyobj) : coro unit :=
  message ← (if negb (isinstance_Message message)
             then perform (NewMessage message) else mret message);
  perform (LoggerInfo "Sending message to Hub...");;
  callback ← perform (NewAwaitableCallback "Successfully sent message to Hub");
  perform (EmulateAsync (call_send_d2c_message message) callback);;
  perform (Completion callback).

Definition _enable_feature (feature_name : feature) : coro unit :=
  perform (LoggerInfo ("Enabling feature:" +:+ feature_text feature_name +:+ "..."));;
  callback ← perform
    (NewAwaitableCallback ("Successfully enabled feature:" +:+ feature_text feature_name));
  perform (EmulateAsync (call_enable_feature feature_name) callback).

Definition receive_method_request (method_name : option string) : coro pyobj :=
  enabled ← perform (FeatureEnabled METHODS);
  (if negb enabled then _enable_feature METHODS else mret tt);;
  method_inbox ← perform (GetMethodRequestInbox method_name);
  perform (LoggerInfo "Waiting for method request...");;
  method_request ← perform (InboxGet method_inbox);
  perform (LoggerInfo "Received method request");;
  mret method_request.

Definition send_method_response (method_response : pyobj) : coro unit :=
  perform (LoggerInfo "Sending method response to Hub...");;
  callback ← perform (NewAwaitableCallback "Successfully sent method response to Hub");
  perform (EmulateAsync (call_send_method_response method_response) callback);;
  perform (Completion callback).

Definition get_twin : coro unit := mret tt.

Definition patch_twin_reported_properties (reported_properties_patch : pyobj)
  : coro unit := mret tt.

Definition receive_twin_desired_properties_patch : coro unit := mret tt.

End GenericIoTHubClient.

Module IoTHubDeviceClient.

Definition __init__ (pipeline : Pipeline) : Client :=
  let c := GenericIoTHubClient.__init__ pipeline in
  {| _pipeline :=
       {| feature_enabled := feature_enabled (_pipeline c);
          on_connected := on_connected (_pipeline c);
          on_disconnected := on_disconnected (_pipeline c);
          on_method_request_received := on_method_request_received (_pipeline c);
          on_c2d_message_received := Some h_route_c2d_message;
          on_input_message_received := on_input_message_received (_pipeline c);
          respond := respond (_pipeline c);
          received := received (_pipeline c) |};
     _inbox_manager := _inbox_manager c |}.

Definition receive_c2d_message : coro pyobj :=
  enabled ← perform (FeatureEnabled C2D_MSG);
  (if negb enabled then GenericIoTHubClient._enable_feature C2D_MSG else mret tt);;
  c2d_inbox ← perform GetC2DMessageInbox;
  perform (LoggerInfo "Waiting for C2D message...");;
  message ← perform (InboxGet c2d_inbox);
  perform (LoggerInfo "C2D message received");;
  mret message.

End IoTHubDeviceClient.

Module IoTHubModuleClient.

Definition __init__ (pipeline : Pipeline) : Client :=
  let c := GenericIoTHubClient.__init__ pipeline in
  {| _pipeline :=
       {| feature_enabled := feature_enabled (_pipeline c);
          on_connected := on_connected (_pipeline c);
          on_disconnected := on_disconnected (_pipeline c);
          on_method_request_received := on_method_request_received (_pipeline c);
          on_c2d_message_received := on_c2d_message_received (_pipeline c);
          on_input_message_received := Some h_route_input_message;
          respond := respond (_pipeline c);
          received := received (_pipeline c) |};
     _inbox_manager := _inbox_manager c |}.

Definition send_to_output (message : pyobj) (output_name : string) : coro unit :=
  message ← (if negb (isinstance_Message message)
             then perform (NewMessage message) else mret message);
  perform (SetOutputName message output_name);;
  perform (LoggerInfo ("Sending message to output:" +:+ output_name +:+ "..."));;
  callback ← perform
    (NewAwaitableCallback ("Successfully sent message to output: " +:+ output_name));
  perform (EmulateAsync (call_send_output_event message) callback);;
  perform (Completion callback).

Definition receive_input_message (input_name : string) : coro pyobj :=
  enabled ← perform (FeatureEnabled INPUT_MSG);
  (if negb enabled then GenericIoTHubClient._enable_feature INPUT_MSG else mret tt);;
  inbox ← perform (GetInputMessageInbox input_name);
  perform (LoggerInfo ("Waiting for input message on: " +:+ input_name +:+ "..."));;
  message ← perform (InboxGet inbox);
  perform (LoggerInfo ("Input message received on: " +:+ input_name));;
  mret message.

End IoTHubModuleClient.

(** ** The transport's side *)

(** The two slots a connection-state change can come through. *)
Inductive state_slot := via_on_connected | via_on_disconnected.

(** What the pipeline reports by calling a handler slot. *)
Inductive notification :=
| n_connection_state (via : state_slot) (new_state : string)
| n_method_request (request : pyobj)
| n_c2d_message (message : pyobj)
| n_input_message (input_name : string) (message : pyobj).

Definition slot_of (n : notification) (p : Pipeline) : option handler :=
  match n with
  | n_connection_state via_on_connected _ => on_connected p
  | n_connection_state via_on_disconnected _ => on_disconnected p
  | n_method_request _ => on_method_request_received p
  | n_c2d_message _ => on_c2d_message_received p
  | n_input_message _ _ => on_input_message_received p
  end.

(** Calling a handler of this client with what the slot is called with.  A
    callable of somebody else has no reference to this client's inbox
    manager; a handler called with arguments of another slot does not run. *)
Definition invoke (h : handler) (n : notification) (w : World) : World :=
  match h, n with
  | h_on_state_change, n_connection_state _ new_state =>
      GenericIoTHubClient._on_state_change new_state w
  | h_route_method_request, n_method_request request =>
      set_inbox_manager (route_method_request request (inbox_manager w)) w
  | h_route_c2d_message, n_c2d_message message =>
      set_inbox_manager (route_c2d_message message (inbox_manager w)) w
  | h_route_input_message, n_input_message input_name message =>
      set_inbox_manager (route_input_message input_name message (inbox_manager w)) w
  | _, _ => w
  end.

(** The pipeline calls the handler its slot holds, if any. *)
Definition notify (n : notification) (w : World) : World :=
  match slot_of n (pipeline w) with
  | Some h => invoke h n w
  | None => w
  end.

Definition set_transport (flags : feature → bool) (r : pipeline_call → response)
    (w : World) : World :=
  {| self :=
       {| _pipeline :=
            {| feature_enabled := flags;
               on_connected := on_connected (pipeline w);
               on_disconnected := on_disconnected (pipeline w);
               on_method_request_received := on_method_request_received (pipeline w);
               on_c2d_message_received := on_c2d_message_received (pipeline w);
               on_input_message_received := on_input_message_received (pipeline w);
               respond := r;
               received := received (pipeline w) |};
          _inbox_manager := inbox_manager w |};
     heap := heap w; callbacks := callbacks w; log := log w |}.

(** What happens between two runs of the client's coroutines: the transport
    fires a callback, reports through a handler slot, flips a feature flag or
    changes how it answers calls; the application creates a [Message] or
    assigns to one it holds. *)
Inductive event :=
| t_fires (cb : cb_ref) (o : outcome)
| t_notifies (n : notification)
| t_feature (f : feature) (enabled : bool)
| t_behaves (r : pipeline_call → response)
| a_new_message (m : Message)
| a_assigns (l : loc) (m : Message).

Definition outside_step (ev : event) (w : World) : World :=
  match ev with
  | t_fires cb o => fire cb o w
  | t_notifies n => notify n w
  | t_feature f b =>
      set_transport (λ g, if decide (g = f) then b else feature_enabled (pipeline w) g)
        (respond (pipeline w)) w
  | t_behaves r => set_transport (feature_enabled (pipeline w)) r w
  | a_new_message m => set_heap (heap w ++ [m]) w
  | a_assigns l m => set_heap (<[l := m]> (heap w)) w
  end.

(** One move of the whole system: a coroutine of the client runs until
    control is back with the scheduler, or something happens outside. *)
Inductive world_step : World → World → Prop :=
| step_coro {R : Type} (p : coro R) (w : World) :
    world_step w (world_of (run p w))
| step_outside (ev : event) (w : World) :
    world_step w (outside_step ev w).

(** The worlds a client object can be in from its construction onward. *)
Definition reachable_from (c : Client) (w : World) : Prop :=
  ∃ w0, self w0 = c ∧ rtc world_step w0 w.

(** A client right after construction, with nothing else around. *)
Definition fresh_world (c : Client) : World :=
  {| self := c; heap := []; callbacks := []; log := [] |}.

(** A pipeline nobody has assigned handlers to and whose transport answers
    every call as [r] says. *)
Definition new_pipeline (flags : feature → bool) (r : pipeline_call → response)
    : Pipeline :=
  {| feature_enabled := flags;
     on_connected := None; on_disconnected := None;
     on_method_request_received := None;
     on_c2d_message_received := None;
     on_input_message_received := None;
     respond := r; received := [] |}.

(** The five handler slots of a pipeline. *)
Definition slots (p : Pipeline) : list (option handler) :=
  [on_connected p; on_disconnected p; on_method_request_received p;
   on_c2d_message_received p; on_input_message_received p].

(** A slot that holds no bound method of this client (those do not exist
    before the client does): it is empty or holds somebody else's callable. *)
Definition not_of_this_client (s : option handler) : Prop :=
  match s with
  | None | Some (h_foreign _) => True
  | Some _ => False
  end.

(** The inbox of the method-request category for a key. *)
Definition method_request_inbox (method_name : option string) : inbox :=
  match method_name with
  | Some n => NamedMethodInbox n
  | None => GenericMethodInbox
  end.

Definition is_method_request_inbox (i : inbox) : bool :=
  match i with
  | GenericMethodInbox | NamedMethodInbox _ => true
  | _ => false
  end.

(** ** What the claims are stated with *)

(** The coroutine [p] wraps the entry point [c] of the pipeline through the
    callback bridge and hands control back to its caller only when the
    callback has confirmed completion: it makes that one call with a new
    awaitable callback; if it has returned the callback has reported success,
    if it has raised it raises the failure the callback reported, and
    otherwise it is suspended on the callback's completion and stays so until
    the signal is fulfilled. *)
Definition suspends_until_completion (c : pipeline_call) (p : coro unit)
    (w : World) : Prop :=
  let cb := length (callbacks w) in
  calls_since w (world_of (run p w)) =
    [{| op := c; callback := cb; envelope := deref (heap w) (argument c) |}] ∧
  match run p w with
  | Returned _ w' => signal_of cb w' = Some (Fulfilled Success)
  | Raised e w' => signal_of cb w' = Some (Fulfilled (Failure e))
  | Suspended s w' rest =>
      s = on_completion cb ∧ signal_of cb w' = Some Pending ∧
      ∀ w'' : World,
        run rest w'' =
        match signal_of cb w'' with
        | Some (Fulfilled Success) => Returned tt w''
        | Some (Fulfilled (Failure e)) => Raised e w''
        | _ => Suspended (on_completion cb) w'' rest
        end
  end.

(** A value a caller can really hold: a [Message] reference points at an
    object of the heap. *)
Definition well_formed (h : list Message) (o : pyobj) : Prop :=
  match o with
  | PyMessage l => is_Some (h !! l)
  | _ => True
  end.

(** The receive operation [p] for feature [f] and inbox [i]: it makes the
    enable-feature call exactly when the flag of [f] is off, and nothing
    else reaches the pipeline; then it is at [i.get()]: with an item queued it
    returns the oldest one and takes it off the queue, and with none it is
    suspended on that inbox, stays so while the inbox is empty, and returns
    the item it dequeues once there is one. *)
Definition receives_from (f : feature) (i : inbox) (p : coro pyobj)
    (w : World) : Prop :=
  calls_since w (world_of (run p w)) =
    (if feature_enabled (pipeline w) f then []
     else [{| op := call_enable_feature f;
              callback := length (callbacks w); envelope := None |}]) ∧
  match queue i (inbox_manager w) with
  | item :: q =>
      ∃ w' : World, run p w = Returned item w' ∧ queue i (inbox_manager w') = q
  | [] =>
      ∃ (w' : World) (rest : coro pyobj),
        run p w = Suspended (on_inbox_get i) w' rest ∧
        ∀ w'' : World,
          match queue i (inbox_manager w'') with
          | item :: q =>
              ∃ w3 : World,
                run rest w'' = Returned item w3 ∧ queue i (inbox_manager w3) = q
          | [] => run rest w'' = Suspended (on_inbox_get i) w'' rest
          end
  end.

(** The clients this file defines, as their constructors build them. *)
Definition constructed (c : Client) : Prop :=
  ∃ p : Pipeline,
    c = GenericIoTHubClient.__init__ p ∨
    c = IoTHubDeviceClient.__init__ p ∨
    c = IoTHubModuleClient.__init__ p.

(** What a send operation passes on for [message]: the value itself when it
    is a [Message], the reference of the envelope it allocates otherwise. *)
Definition normalised (h : list Message) (message : pyobj) : pyobj :=
  if isinstance_Message message then message else PyMessage (length h).

(** The signal the transport leaves behind when it is handed the call [c]. *)
Definition signal_after (c : pipeline_call) (w : World) : signal :=
  match respond (pipeline w) c with
  | not_yet => Pending
  | calls_back o => Fulfilled o
  end.

(** The coroutine [p], which hands the call [c] to the pipeline with a
    callback of its own, ends on that callback's completion: the callback's
    signal is what the transport made of it; [p] has returned only with a
    confirmed success, raised only the reported failure, and is otherwise
    suspended on the completion for as long as the signal is pending. *)
Definition awaits_its_callback (c : pipeline_call) (p : coro unit)
    (w : World) : Prop :=
  let cb := length (callbacks w) in
  signal_of cb (world_of (run p w)) = Some (signal_after c w) ∧
  match run p w with
  | Returned _ w' => signal_of cb w' = Some (Fulfilled Success)
  | Raised e w' => signal_of cb w' = Some (Fulfilled (Failure e))
  | Suspended s w' rest =>
      s = on_completion cb ∧ signal_of cb w' = Some Pending ∧
      ∀ w'' : World,
        run rest w'' =
        match signal_of cb w'' with
        | Some (Fulfilled Success) => Returned tt w''
        | Some (Fulfilled (Failure e)) => Raised e w''
        | _ => Suspended (on_completion cb) w'' rest
        end
  end.

(** The receive operation [p] takes what it returns from the inbox [i] and
    from nowhere else: it takes at most the oldest item off [i], every other
    inbox keeps its queue, no [Message] object is allocated or assigned to,
    and the callbacks of operations in flight stay as they are. *)
Definition takes_only_from (i : inbox) (p : coro pyobj) (w : World) : Prop :=
  let w' := world_of (run p w) in
  queue i (inbox_manager w') = tail (queue i (inbox_manager w)) ∧
  (∀ j : inbox, j ≠ i → queue j (inbox_manager w') = queue j (inbox_manager w)) ∧
  heap w' = heap w ∧
  callbacks w `prefix_of` callbacks w'.

(** The bridged operation [p] creates one awaitable callback, after those
    that exist, and leaves those as they are. *)
Definition creates_one_callback (p : coro unit) (w : World) : Prop :=
  ∃ own : AwaitableCallback,
    callbacks (world_of (run p w)) = callbacks w ++ [own].

(** ** Running coroutines: general facts *)

Lemma run_bind {A B : Type} (p : coro A) (f : A → coro B) (w : World) :
  run (p ≫= f) w =
  match run p w with
  | Returned a w' => run (f a) w'
  | Raised e w' => Raised e w'
  | Suspended s w' rest => Suspended s w' (rest ≫= f)
  end.
Proof.
  revert w. induction p as [a|X e k IH]; intros w; [done|].
  change (run (Step e k ≫= f) w) with (run (Step e (λ x, k x ≫= f)) w).
  cbn [run]. destruct (handle e w) as [x w'|err w'|s]; [apply IH|done|done].
Qed.

Lemma handle_slots {X : Type} (e : clientE X) (w : World) :
  match handle e w with
  | Resumes _ w' | Throws _ w' => slots (pipeline w') = slots (pipeline w)
  | Suspends _ => True
  end.
Proof.
  destruct e; cbn; try done.
  - by destruct message.
  - unfold dispatch. destruct (respond _ _); [done|].
    unfold fire. cbn. by destruct (_ !! _) as [[? []]|].
  - by destruct (signal_of cb w) as [[|[|]]|].
  - by destruct method_name.
  - by destruct (queue i _).
Qed.

Lemma run_slots {R : Type} (p : coro R) (w : World) :
  slots (pipeline (world_of (run p w))) = slots (pipeline w).
Proof.
  revert w. induction p as [a|X e k IH]; intros w; [done|].
  cbn [run]. pose proof (handle_slots e w) as Hs.
  destruct (handle e w) as [x w'|err w'|s]; [|done|done].
  by rewrite IH.
Qed.

Lemma fire_slots (cb : cb_ref) (o : outcome) (w : World) :
  slots (pipeline (fire cb o w)) = slots (pipeline w).
Proof. unfold fire. by destruct (_ !! _) as [[? []]|]. Qed.

Lemma notify_slots (n : notification) (w : World) :
  slots (pipeline (notify n w)) = slots (pipeline w).
Proof.
  unfold notify. destruct (slot_of n _) as [h|]; [|done].
  destruct h, n; try done. cbn.
  unfold GenericIoTHubClient._on_state_change. by destruct (String.eqb _ _).
Qed.

Lemma world_step_slots (w w' : World) :
  world_step w w' → slots (pipeline w') = slots (pipeline w).
Proof.
  destruct 1 as [R p w|ev w]; [apply run_slots|].
  destruct ev; cbn; auto using fire_slots, notify_slots.
Qed.

Lemma reachable_slots (c : Client) (w : World) :
  reachable_from c w → slots (pipeline w) = slots (_pipeline c).
Proof.
  intros (w0 & <- & Hsteps). induction Hsteps as [|x y z Hxy _ IH]; [done|].
  rewrite IH. by apply world_step_slots.
Qed.

(** ** The callback bridge: what a dispatched call leaves behind *)

Lemma fire_frame (cb : cb_ref) (o : outcome) (w : World) :
  self (fire cb o w) = self w ∧ heap (fire cb o w) = heap w.
Proof. unfold fire. by destruct (_ !! _) as [[? []]|]. Qed.

Lemma signal_of_fire (cb : cb_ref) (o : outcome) (w : World) :
  signal_of cb w = Some Pending → signal_of cb (fire cb o w) = Some (Fulfilled o).
Proof.
  unfold signal_of, fire. intros H.
  destruct (callbacks w !! cb) as [[msg sg]|] eqn:Hcb; [|done].
  cbn in H. injection H as ->. cbn.
  rewrite list_lookup_insert_eq; [done|]. by eapply lookup_lt_Some.
Qed.

Lemma dispatch_frame (c : pipeline_call) (cb : cb_ref) (w : World) :
  inbox_manager (dispatch c cb w) = inbox_manager w ∧
  heap (dispatch c cb w) = heap w ∧
  feature_enabled (pipeline (dispatch c cb w)) = feature_enabled (pipeline w) ∧
  received (pipeline (dispatch c cb w)) =
    received (pipeline w) ++
      [{| op := c; callback := cb; envelope := deref (heap w) (argument c) |}].
Proof.
  unfold dispatch. destruct (respond _ _); [done|].
  unfold inbox_manager, pipeline.
  by destruct (fire_frame cb o
    (record_call {| op := c; callback := cb;
                    envelope := deref (heap w) (argument c) |} w)) as [-> ->].
Qed.

Lemma signal_of_dispatch (c : pipeline_call) (cb : cb_ref) (w : World) :
  signal_of cb w = Some Pending →
  signal_of cb (dispatch c cb w) =
    Some (match respond (pipeline w) c with
          | not_yet => Pending
          | calls_back o => Fulfilled o
          end).
Proof.
  intros H. unfold dispatch. destruct (respond _ _); [done|].
  by apply signal_of_fire.
Qed.

Lemma signal_of_new (msg : string) (w : World) :
  signal_of (length (callbacks w))
    (set_callbacks (callbacks w ++ [{| sync_callback := msg; future := Pending |}]) w)
  = Some Pending.
Proof. unfold signal_of. cbn. by rewrite list_lookup_middle. Qed.

Lemma calls_since_one (w w' : World) (i : invocation) :
  received (pipeline w') = received (pipeline w) ++ [i] → calls_since w w' = [i].
Proof. unfold calls_since. intros ->. by rewrite drop_app_length. Qed.

Lemma calls_since_none (w w' : World) :
  received (pipeline w') = received (pipeline w) → calls_since w w' = [].
Proof. unfold calls_since. intros ->. by rewrite drop_all. Qed.

(** Awaiting [callback.completion()] as the last step of a coroutine. *)
Lemma run_completion (cb : cb_ref) (w : World) :
  run (perform (Completion cb)) w =
  match signal_of cb w with
  | Some (Fulfilled Success) => Returned tt w
  | Some (Fulfilled (Failure e)) => Raised e w
  | _ => Suspended (on_completion cb) w (perform (Completion cb))
  end.
Proof. cbn. by destruct (signal_of cb w) as [[|[|]]|]. Qed.

(** The tail every bridged operation of the clients ends with: create the
    awaitable callback, hand the call to the pipeline, await completion. *)
Lemma run_bridged_tail (msg : string) (c : pipeline_call) (w : World) :
  let cb := length (callbacks w) in
  let w' :=
    dispatch c cb
      (set_callbacks
         (callbacks w ++ [{| sync_callback := msg; future := Pending |}]) w) in
  run (callback ← perform (NewAwaitableCallback msg);
       perform (EmulateAsync c callback);; perform (Completion callback)) w
  = match respond (pipeline w) c with
    | not_yet => Suspended (on_completion cb) w' (perform (Completion cb))
    | calls_back Success => Returned tt w'
    | calls_back (Failure e) => Raised e w'
    end.
Proof.
  intros cb w'. cbn [mbind coro_bind bind perform run handle].
  fold cb. fold w'.
  assert (signal_of cb w' =
          Some (match respond (pipeline w) c with
                | not_yet => Pending
                | calls_back o => Fulfilled o
                end)) as ->
    by (unfold w', cb; by rewrite signal_of_dispatch by apply signal_of_new).
  by destruct (respond _ _) as [|[|]].
Qed.

(** ** connect and disconnect *)

Lemma bridged_tail_suspends_until_completion
    (msg : string) (c : pipeline_call) (w0 w : World) :
  callbacks w = callbacks w0 → received (pipeline w) = received (pipeline w0) →
  heap w = heap w0 →
  let r := run (callback ← perform (NewAwaitableCallback msg);
                perform (EmulateAsync c callback);;
                perform (Completion callback)) w in
  let cb := length (callbacks w0) in
  calls_since w0 (world_of r) =
    [{| op := c; callback := cb; envelope := deref (heap w0) (argument c) |}] ∧
  match r with
  | Returned _ w' => signal_of cb w' = Some (Fulfilled Success)
  | Raised e w' => signal_of cb w' = Some (Fulfilled (Failure e))
  | Suspended s w' rest =>
      s = on_completion cb ∧ signal_of cb w' = Some Pending ∧
      ∀ w'' : World,
        run rest w'' =
        match signal_of cb w'' with
        | Some (Fulfilled Success) => Returned tt w''
        | Some (Fulfilled (Failure e)) => Raised e w''
        | _ => Suspended (on_completion cb) w'' rest
        end
  end.
Proof.
  intros Hcb Hrcv Hheap r cb. subst r. rewrite run_bridged_tail.
  set (w1 := set_callbacks _ w).
  assert (signal_of cb (dispatch c cb w1) =
          Some (match respond (pipeline w) c with
                | not_yet => Pending
                | calls_back o => Fulfilled o
                end)) as Hsig.
  { unfold cb. rewrite <- Hcb. unfold w1.
    by rewrite signal_of_dispatch by apply signal_of_new. }
  destruct (dispatch_frame c (length (callbacks w)) w1) as (_ & _ & _ & Hr).
  rewrite Hcb in Hr. fold cb in Hr.
  assert (calls_since w0 (dispatch c cb w1) =
          [{| op := c; callback := cb; envelope := deref (heap w0) (argument c) |}])
    as Hcalls.
  { apply calls_since_one. rewrite Hr.
    change (received (pipeline w1)) with (received (pipeline w)).
    change (heap w1) with (heap w). by rewrite Hrcv, Hheap. }
  rewrite Hcb. fold cb.
  destruct (respond (pipeline w) c) as [|[|e]]; cbn [world_of];
    (split; [exact Hcalls|]); try exact Hsig.
  split; [done|]. split; [exact Hsig|].
  intros w''. apply run_completion.
Qed.

(** C4: connect() and disconnect() each hand the pipeline's connect or
    disconnect entry point one call with a new awaitable callback and await
    that callback's completion: the caller is resumed with no payload only
    when the callback has confirmed success, gets the reported failure raised
    when it reported one, and is otherwise suspended on the completion until
    the signal is fulfilled. *)
Theorem connect_disconnect_suspend_until_completion (w : World) :
  suspends_until_completion call_connect GenericIoTHubClient.connect w ∧
  suspends_until_completion call_disconnect GenericIoTHubClient.disconnect w.
Proof.
  split; unfold suspends_until_completion.
  - unfold GenericIoTHubClient.connect. rewrite run_bind. cbn [perform run handle].
    by apply bridged_tail_suspends_until_completion.
  - unfold GenericIoTHubClient.disconnect. rewrite run_bind. cbn [perform run handle].
    by apply bridged_tail_suspends_until_completion.
Qed.

(** ** Sending *)

Lemma world_of_bridged_tail (msg : string) (c : pipeline_call) (w : World) :
  world_of (run (callback ← perform (NewAwaitableCallback msg);
                 perform (EmulateAsync c callback);;
                 perform (Completion callback)) w)
  = dispatch c (length (callbacks w))
      (set_callbacks
         (callbacks w ++ [{| sync_callback := msg; future := Pending |}]) w).
Proof. rewrite run_bridged_tail. by destruct (respond _ _) as [|[|]]. Qed.

(** [if not isinstance(message, Message): message = Message(message)] *)
Lemma run_normalise (message : pyobj) (w : World) :
  run (if negb (isinstance_Message message)
       then perform (NewMessage message) else mret message) w
  = if isinstance_Message message then Returned message w
    else Returned (PyMessage (length (heap w)))
           (set_heap (heap w ++ [Message__init__ message]) w).
Proof. by destruct message. Qed.

(** C5: send_d2c_message hands the pipeline's send operation exactly one
    call, and its argument is a Message object: the caller's own object when
    the payload already is a Message (nothing is allocated), and otherwise a
    new Message built from the payload. *)
Theorem send_d2c_message_sends_a_Message (w : World) (message : pyobj) :
  let w' := world_of (run (GenericIoTHubClient.send_d2c_message message) w) in
  ∃ l : loc,
    calls_since w w' =
      [{| op := call_send_d2c_message (PyMessage l);
          callback := length (callbacks w);
          envelope := heap w' !! l |}] ∧
    if isinstance_Message message
    then message = PyMessage l ∧ heap w' = heap w
    else l = length (heap w) ∧ heap w' = heap w ++ [Message__init__ message] ∧
         heap w' !! l = Some (Message__init__ message).
Proof.
  unfold GenericIoTHubClient.send_d2c_message.
  rewrite run_bind, run_normalise.
  destruct (isinstance_Message message) eqn:Hm.
  - destruct message as [| | | |l]; try done. exists l.
    rewrite run_bind. cbn [perform run handle].
    rewrite world_of_bridged_tail.
    set (w1 := set_callbacks _ _).
    destruct (dispatch_frame (call_send_d2c_message (PyMessage l))
                (length (callbacks w)) w1) as (_ & Hh & _ & Hr).
    cbn zeta. change (callbacks (logger_info _ w)) with (callbacks w).
    rewrite Hh. split; [|done]. by apply calls_since_one.
  - exists (length (heap w)).
    rewrite run_bind. cbn [perform run handle].
    rewrite world_of_bridged_tail.
    set (w1 := set_callbacks _ _).
    destruct (dispatch_frame (call_send_d2c_message (PyMessage (length (heap w))))
                (length (callbacks w)) w1) as (_ & Hh & _ & Hr).
    cbn zeta. change (callbacks (logger_info _ _)) with (callbacks w).
    rewrite Hh. change (heap w1) with (heap w ++ [Message__init__ message]).
    split; [by apply calls_since_one|].
    split; [done|]. split; [done|]. by rewrite list_lookup_middle.
Qed.

(** What send_to_output leaves behind once the message is a Message object:
    the object is assigned to in place and the very same reference is passed
    on to the pipeline. *)
Lemma send_to_output_on_Message (w : World) (l : loc) (name : string) :
  let w' :=
    world_of (run (IoTHubModuleClient.send_to_output (PyMessage l) name) w) in
  heap w' = alter (with_output_name name) l (heap w) ∧
  calls_since w w' =
    [{| op := call_send_output_event (PyMessage l);
        callback := length (callbacks w);
        envelope := with_output_name name <$> heap w !! l |}].
Proof.
  unfold IoTHubModuleClient.send_to_output.
  rewrite run_bind, run_normalise. cbn [isinstance_Message].
  rewrite run_bind. cbn [perform run handle].
  rewrite run_bind. cbn [perform run handle].
  rewrite world_of_bridged_tail.
  set (w1 := set_callbacks _ _).
  destruct (dispatch_frame (call_send_output_event (PyMessage l))
              (length (callbacks w)) w1) as (_ & Hh & _ & Hr).
  cbn zeta. change (callbacks (logger_info _ _)) with (callbacks w).
  rewrite Hh. split; [done|].
  apply calls_since_one. rewrite Hr. cbn. by rewrite list_lookup_alter_eq.
Qed.

Lemma send_to_output_on_other (w : World) (message : pyobj) (name : string) :
  isinstance_Message message = false →
  world_of (run (IoTHubModuleClient.send_to_output message name) w) =
  world_of (run (IoTHubModuleClient.send_to_output (PyMessage (length (heap w))) name)
              (set_heap (heap w ++ [Message__init__ message]) w)).
Proof.
  intros Hm. unfold IoTHubModuleClient.send_to_output.
  rewrite (run_bind _ _ w), (run_bind _ _ (set_heap _ w)), !run_normalise, Hm. done.
Qed.

(** C6: send_to_output(message, output_name), called with a value the caller
    can hold, hands the pipeline's send-output-event operation exactly one
    call; its argument is a Message object (the caller's own, or a new one
    built from the payload) that at the time of the call carries the given
    output name. *)
Theorem send_to_output_stamps_output_name
    (w : World) (message : pyobj) (name : string) :
  well_formed (heap w) message →
  let w' :=
    world_of (run (IoTHubModuleClient.send_to_output message name) w) in
  ∃ (l : loc) (m : Message),
    calls_since w w' =
      [{| op := call_send_output_event (PyMessage l);
          callback := length (callbacks w);
          envelope := Some m |}] ∧
    output_name m = Some name ∧
    if isinstance_Message message
    then message = PyMessage l ∧ data <$> heap w !! l = Some (data m)
    else l = length (heap w) ∧ data m = message.
Proof.
  intros Hwf w'. subst w'. destruct (isinstance_Message message) eqn:Hm.
  - destruct message as [| | | |l]; try done. destruct Hwf as [m0 Hm0].
    exists l, (with_output_name name m0).
    destruct (send_to_output_on_Message w l name) as [_ ->].
    by rewrite Hm0.
  - rewrite send_to_output_on_other by done.
    exists (length (heap w)), (with_output_name name (Message__init__ message)).
    set (w1 := set_heap _ w).
    destruct (send_to_output_on_Message w1 (length (heap w)) name) as [_ Hc].
    change (heap w1) with (heap w ++ [Message__init__ message]) in Hc.
    rewrite list_lookup_middle in Hc by done.
    split; [|done]. exact Hc.
Qed.

Lemma send_to_output_stamps_output_name_witness :
  let w := fresh_world (IoTHubModuleClient.__init__
                          (new_pipeline (λ _, false) (λ _, calls_back Success))) in
  ∃ (l : loc) (m : Message),
    calls_since w
      (world_of (run (IoTHubModuleClient.send_to_output (PyStr "reading") "alerts") w)) =
      [{| op := call_send_output_event (PyMessage l);
          callback := 0; envelope := Some m |}] ∧
    output_name m = Some "alerts" ∧ l = 0 ∧ data m = PyStr "reading".
Proof.
  exact (send_to_output_stamps_output_name
           (fresh_world (IoTHubModuleClient.__init__
                           (new_pipeline (λ _, false) (λ _, calls_back Success))))
           (PyStr "reading") "alerts" I).
Defined.

(** C9: when send_to_output is given a Message object, it assigns the output
    name to that very object: whatever the coroutine has come to (returned
    included), the caller's object holds the given output name and its old
    data, no object has been allocated, no other object has changed, and the
    pipeline was handed the same reference. *)
Theorem send_to_output_assigns_in_place
    (w : World) (l : loc) (m : Message) (name : string) :
  heap w !! l = Some m →
  let r := run (IoTHubModuleClient.send_to_output (PyMessage l) name) w in
  heap (world_of r) !! l = Some {| data := data m; output_name := Some name |} ∧
  length (heap (world_of r)) = length (heap w) ∧
  (∀ l' : loc, l' ≠ l → heap (world_of r) !! l' = heap w !! l') ∧
  (∃ i : invocation,
     calls_since w (world_of r) = [i] ∧
     op i = call_send_output_event (PyMessage l)) ∧
  (∀ w' : World, r = Returned tt w' →
     output_name <$> heap w' !! l = Some (Some name)).
Proof.
  intros Hl r. subst r.
  destruct (send_to_output_on_Message w l name) as [Hh Hc].
  cbn zeta in Hh, Hc.
  split; [by rewrite Hh, list_lookup_alter_eq, Hl|].
  split; [by rewrite Hh, length_alter|].
  split; [by intros l' Hne; rewrite Hh, list_lookup_alter_ne|].
  split; [by eexists; split; [exact Hc|]|].
  intros w' Hr. rewrite Hr in Hh. cbn [world_of] in Hh.
  by rewrite Hh, list_lookup_alter_eq, Hl.
Qed.

Lemma send_to_output_assigns_in_place_witness :
  let w :=
    set_heap [{| data := PyStr "reading"; output_name := Some "old" |}]
      (fresh_world (IoTHubModuleClient.__init__
                      (new_pipeline (λ _, false) (λ _, calls_back Success)))) in
  heap (world_of (run (IoTHubModuleClient.send_to_output (PyMessage 0) "alerts") w))
    !! 0 = Some {| data := PyStr "reading"; output_name := Some "alerts" |}.
Proof.
  exact (proj1 (send_to_output_assigns_in_place
                  (set_heap [{| data := PyStr "reading"; output_name := Some "old" |}]
                     (fresh_world (IoTHubModuleClient.__init__
                        (new_pipeline (λ _, false) (λ _, calls_back Success)))))
                  0 {| data := PyStr "reading"; output_name := Some "old" |}
                  "alerts" eq_refl)).
Defined.

(** ** Receiving *)

Lemma queue_set_queue (i : inbox) (q : list pyobj) (im : InboxManager) :
  queue i (set_queue i q im) = q.
Proof. destruct i; cbn; by rewrite ?lookup_insert_eq. Qed.

Lemma queue_ensure (i : inbox) (im : InboxManager) :
  queue i (ensure i im) = queue i im.
Proof.
  destruct i as [|n| |n]; cbn; try done.
  - destruct (named_method_request_inboxes im !! n) eqn:H; [by rewrite H|].
    cbn. by rewrite lookup_insert_eq.
  - destruct (input_message_inboxes im !! n) eqn:H; [by rewrite H|].
    cbn. by rewrite lookup_insert_eq.
Qed.

(** [_enable_feature] returns as soon as the call has been handed over: it
    creates an awaitable callback and never awaits its completion. *)
Lemma run_enable_feature (f : feature) (w : World) :
  run (GenericIoTHubClient._enable_feature f) w =
  Returned tt
    (dispatch (call_enable_feature f) (length (callbacks w))
       (set_callbacks
          (callbacks w ++
             [{| sync_callback := "Successfully enabled feature:" +:+ feature_text f;
                 future := Pending |}])
          (logger_info ("Enabling feature:" +:+ feature_text f +:+ "...") w))).
Proof. done. Qed.

Lemma run_enable_if_needed (f : feature) (w : World) :
  ∃ w1 : World,
    run (if negb (feature_enabled (pipeline w) f)
         then GenericIoTHubClient._enable_feature f else mret tt) w
    = Returned tt w1 ∧
    inbox_manager w1 = inbox_manager w ∧
    received (pipeline w1) =
      received (pipeline w) ++
        (if feature_enabled (pipeline w) f then []
         else [{| op := call_enable_feature f;
                  callback := length (callbacks w); envelope := None |}]).
Proof.
  destruct (feature_enabled (pipeline w) f); cbn [negb].
  - exists w. by rewrite app_nil_r.
  - rewrite run_enable_feature. eexists. split; [done|].
    set (w0 := set_callbacks _ _).
    by destruct (dispatch_frame (call_enable_feature f) (length (callbacks w)) w0)
      as (-> & _ & _ & ->).
Qed.

(** The common end of the receive operations: log, [await inbox.get()],
    log, return the item. *)
Lemma run_wait (i : inbox) (m1 m2 : string) (w : World) :
  run (perform (LoggerInfo m1);;
       item ← perform (InboxGet i);
       perform (LoggerInfo m2);; mret item) w
  = match queue i (inbox_manager w) with
    | item :: q =>
        Returned item
          (logger_info m2
             (set_inbox_manager (set_queue i q (inbox_manager w)) (logger_info m1 w)))
    | [] =>
        Suspended (on_inbox_get i) (logger_info m1 w)
          (item ← perform (InboxGet i); perform (LoggerInfo m2);; mret item)
    end.
Proof.
  cbn [mbind coro_bind bind perform run handle].
  change (inbox_manager (logger_info m1 w)) with (inbox_manager w).
  by destruct (queue i (inbox_manager w)).
Qed.

Lemma run_get (i : inbox) (m2 : string) (w : World) :
  run (item ← perform (InboxGet i); perform (LoggerInfo m2);; mret item) w
  = match queue i (inbox_manager w) with
    | item :: q =>
        Returned item
          (logger_info m2 (set_inbox_manager (set_queue i q (inbox_manager w)) w))
    | [] =>
        Suspended (on_inbox_get i) w
          (item ← perform (InboxGet i); perform (LoggerInfo m2);; mret item)
    end.
Proof.
  cbn [mbind coro_bind bind perform run handle].
  by destruct (queue i (inbox_manager w)).
Qed.

Lemma receives_from_intro
    (f : feature) (i : inbox) (get : coro inbox) (m1 m2 : string) (w : World) :
  (∀ w0 : World,
     run get w0 = Returned i (set_inbox_manager (ensure i (inbox_manager w0)) w0)) →
  receives_from f i
    (enabled ← perform (FeatureEnabled f);
     (if negb enabled then GenericIoTHubClient._enable_feature f else mret tt);;
     inbox ← get;
     perform (LoggerInfo m1);;
     item ← perform (InboxGet inbox);
     perform (LoggerInfo m2);; mret item) w.
Proof.
  intros Hget. unfold receives_from.
  rewrite run_bind. cbn [perform run handle].
  rewrite run_bind.
  destruct (run_enable_if_needed f w) as (w1 & -> & Him & Hrcv).
  rewrite run_bind, Hget, run_wait.
  change (inbox_manager (set_inbox_manager ?im _)) with im.
  rewrite queue_ensure, Him.
  set (calls := if feature_enabled (pipeline w) f then [] else _) in *.
  destruct (queue i (inbox_manager w)) as [|item q] eqn:Hq.
  - split.
    { unfold calls_since. cbn [world_of].
      change (received (pipeline (logger_info _ (set_inbox_manager _ w1))))
        with (received (pipeline w1)).
      by rewrite Hrcv, drop_app_length. }
    eexists _, _. split; [done|].
    intros w''. rewrite run_get. destruct (queue i (inbox_manager w'')); [done|].
    eexists. split; [done|]. cbn. apply queue_set_queue.
  - split.
    { unfold calls_since. cbn [world_of].
      change (received (pipeline (logger_info _ (set_inbox_manager _
                (logger_info _ (set_inbox_manager _ w1))))))
        with (received (pipeline w1)).
      by rewrite Hrcv, drop_app_length. }
    eexists. split; [done|]. cbn. apply queue_set_queue.
Qed.

(** C2: each receive operation makes the enable-feature call exactly when
    the pipeline's flag for its category is off at the time of the call, and
    makes no other call; it then is at the get of the inbox the inbox manager
    gives for the category and key: it returns the oldest queued item, taken
    off the queue, or is suspended on that inbox until an item is there and
    then returns the item it dequeues. *)
Theorem receive_enables_then_gets
    (w : World) (method_name : option string) (input_name : string) :
  receives_from METHODS
    (get_method_request_inbox method_name (inbox_manager w)).1
    (GenericIoTHubClient.receive_method_request method_name) w ∧
  receives_from C2D_MSG
    (get_c2d_message_inbox (inbox_manager w)).1
    IoTHubDeviceClient.receive_c2d_message w ∧
  receives_from INPUT_MSG
    (get_input_message_inbox input_name (inbox_manager w)).1
    (IoTHubModuleClient.receive_input_message input_name) w.
Proof.
  split; [|split].
  - apply (receives_from_intro METHODS _ (perform (GetMethodRequestInbox method_name))).
    intros w0. by destruct method_name.
  - by apply (receives_from_intro C2D_MSG _ (perform GetC2DMessageInbox)).
  - by apply (receives_from_intro INPUT_MSG _ (perform (GetInputMessageInbox input_name))).
Qed.

(** C1 (what the code does at two inputs): with the METHODS flag off and a
    transport that has not fired the enable-feature callback when the call is
    handed back, receive_method_request is suspended on the inbox while that
    callback's signal is still pending; and with a transport that fires the
    callback with a failure, a queued request is returned all the same and
    the failure stays unobserved in the signal.  The same holds for
    receive_c2d_message, which shares [_enable_feature]. *)
Theorem receive_does_not_await_enable_feature :
  let request := PyMethodRequest "1" "reboot" in
  let failure := Failure (Error "enable failed") in
  let pending :=
    fresh_world
      (GenericIoTHubClient.__init__ (new_pipeline (λ _, false) (λ _, not_yet))) in
  let failing :=
    notify (n_method_request request)
      (fresh_world
         (GenericIoTHubClient.__init__
            (new_pipeline (λ _, false) (λ _, calls_back failure)))) in
  let device :=
    fresh_world
      (IoTHubDeviceClient.__init__
         (new_pipeline (λ _, false) (λ _, calls_back failure))) in
  (∃ (w' : World) (rest : coro pyobj),
     run (GenericIoTHubClient.receive_method_request None) pending
     = Suspended (on_inbox_get GenericMethodInbox) w' rest ∧
     signal_of 0 w' = Some Pending) ∧
  (∃ w' : World,
     run (GenericIoTHubClient.receive_method_request None) failing
     = Returned request w' ∧
     signal_of 0 w' = Some (Fulfilled failure)) ∧
  (∃ (w' : World) (rest : coro pyobj),
     run IoTHubDeviceClient.receive_c2d_message device
     = Suspended (on_inbox_get C2DInbox) w' rest ∧
     signal_of 0 w' = Some (Fulfilled failure)).
Proof.
  cbn zeta. split; [|split].
  - eexists _, _. split; reflexivity.
  - eexists. split; reflexivity.
  - eexists _, _. split; reflexivity.
Qed.

(** ** Twin operations *)

(** C7: get_twin, patch_twin_reported_properties and
    receive_twin_desired_properties_patch return at once, with no value, in
    the world they were called in: nothing has reached the pipeline and
    nothing of the client has changed, whatever the argument. *)
Theorem twin_operations_are_stubs (w : World) (patch : pyobj) :
  run GenericIoTHubClient.get_twin w = Returned tt w ∧
  run (GenericIoTHubClient.patch_twin_reported_properties patch) w = Returned tt w ∧
  run GenericIoTHubClient.receive_twin_desired_properties_patch w = Returned tt w ∧
  calls_since w (world_of (run GenericIoTHubClient.get_twin w)) = [] ∧
  calls_since w
    (world_of (run (GenericIoTHubClient.patch_twin_reported_properties patch) w)) = [] ∧
  calls_since w
    (world_of (run GenericIoTHubClient.receive_twin_desired_properties_patch w)) = [].
Proof. repeat split; by apply calls_since_none. Qed.

(** ** Connection-state changes *)

Lemma constructed_slots (c : Client) :
  constructed c →
  on_connected (_pipeline c) = Some h_on_state_change ∧
  on_disconnected (_pipeline c) = Some h_on_state_change ∧
  on_method_request_received (_pipeline c) = Some h_route_method_request.
Proof. by intros (p & [->|[->| ->]]). Qed.

Lemma reachable_handlers (c : Client) (w : World) :
  constructed c → reachable_from c w →
  on_connected (pipeline w) = Some h_on_state_change ∧
  on_disconnected (pipeline w) = Some h_on_state_change ∧
  on_method_request_received (pipeline w) = Some h_route_method_request.
Proof.
  intros Hc Hw. apply reachable_slots in Hw.
  destruct (constructed_slots c Hc) as (H1 & H2 & H3).
  unfold slots in Hw. rewrite H1, H2, H3 in Hw. by injection Hw as -> -> -> _ _.
Qed.

Lemma reachable_step (c : Client) (w w' : World) :
  reachable_from c w → world_step w w' → reachable_from c w'.
Proof.
  intros (w0 & Hw0 & Hsteps) Hstep. exists w0. split; [done|].
  by eapply rtc_r.
Qed.

Lemma on_state_change_inbox_manager (new_state : string) (w : World) :
  inbox_manager (GenericIoTHubClient._on_state_change new_state w) =
  if decide (new_state = "disconnected")
  then clear_all_method_requests (inbox_manager w)
  else inbox_manager w.
Proof.
  unfold GenericIoTHubClient._on_state_change.
  destruct (String.eqb_spec new_state "disconnected") as [->|Hne].
  - by rewrite decide_True.
  - by rewrite decide_False.
Qed.

Lemma queue_clear_all_method_requests (i : inbox) (im : InboxManager) :
  is_method_request_inbox i = true →
  queue i (clear_all_method_requests im) = [].
Proof.
  destruct i as [|n| |n]; try done. intros _. cbn.
  rewrite lookup_fmap. by destruct (_ !! n).
Qed.

Lemma notify_connection_state
    (c : Client) (w : World) (via : state_slot) (new_state : string) :
  constructed c → reachable_from c w →
  notify (n_connection_state via new_state) w =
  GenericIoTHubClient._on_state_change new_state w.
Proof.
  intros Hc Hw. destruct (reachable_handlers c w Hc Hw) as (H1 & H2 & _).
  unfold notify. destruct via; cbn [slot_of]; by rewrite ?H1, ?H2.
Qed.

(** C3: a connection-state change reported to a constructed client clears
    every method-request inbox when the new state is "disconnected" (the
    inbox manager is then exactly what clear_all_method_requests makes of
    it) and leaves the inbox manager as it is for any other state; the c2d
    inbox and the input-message inboxes are the same after every
    notification. *)
Theorem state_change_clears_only_method_requests
    (c : Client) (w : World) (via : state_slot) (new_state : string) :
  constructed c → reachable_from c w →
  let w' := notify (n_connection_state via new_state) w in
  inbox_manager w' =
    (if decide (new_state = "disconnected")
     then clear_all_method_requests (inbox_manager w)
     else inbox_manager w) ∧
  (new_state = "disconnected" →
   ∀ i : inbox, is_method_request_inbox i = true → queue i (inbox_manager w') = []) ∧
  (new_state ≠ "disconnected" → inbox_manager w' = inbox_manager w) ∧
  c2d_message_inbox (inbox_manager w') = c2d_message_inbox (inbox_manager w) ∧
  input_message_inboxes (inbox_manager w') = input_message_inboxes (inbox_manager w).
Proof.
  intros Hc Hw w'. subst w'.
  rewrite (notify_connection_state c) by done.
  rewrite on_state_change_inbox_manager.
  split; [done|]. split; [|split].
  - intros -> i Hi. rewrite decide_True by done.
    by apply queue_clear_all_method_requests.
  - intros Hne. by rewrite decide_False.
  - by destruct (decide _).
Qed.

Lemma state_change_clears_only_method_requests_witness :
  let c := IoTHubDeviceClient.__init__ (new_pipeline (λ _, true) (λ _, not_yet)) in
  let request := PyMethodRequest "1" "reboot" in
  let w :=
    outside_step (t_notifies (n_c2d_message (PyStr "hello")))
      (outside_step (t_notifies (n_method_request request)) (fresh_world c)) in
  let w' := notify (n_connection_state via_on_disconnected "disconnected") w in
  queue GenericMethodInbox (inbox_manager w) = [request] ∧
  queue GenericMethodInbox (inbox_manager w') = [] ∧
  c2d_message_inbox (inbox_manager w') = [PyStr "hello"].
Proof.
  cbn zeta.
  set (c := IoTHubDeviceClient.__init__ (new_pipeline (λ _, true) (λ _, not_yet))).
  set (w1 := outside_step _ (fresh_world c)).
  set (w := outside_step _ w1).
  assert (constructed c) as Hc by (eexists; right; left; reflexivity).
  assert (reachable_from c w) as Hw.
  { exists (fresh_world c). split; [reflexivity|].
    eapply rtc_l; [apply step_outside|]. eapply rtc_l; [apply step_outside|].
    apply rtc_refl. }
  destruct (state_change_clears_only_method_requests
              c w via_on_disconnected "disconnected" Hc Hw)
    as (_ & Hclear & _ & Hc2d & _).
  split; [reflexivity|]. split.
  - exact (Hclear eq_refl GenericMethodInbox eq_refl).
  - rewrite Hc2d. reflexivity.
Defined.

(** C8: the purge of method requests on disconnect depends on the reported
    state only.  A constructed client has the same handler,
    [_on_state_change], in the on_connected and the on_disconnected slot, from
    construction onward; a notification has the same effect through either
    slot; and in every world the client can be in, whatever came before, a
    notification whose new state is "disconnected" makes the inbox manager
    what clear_all_method_requests makes of it, so that a second one, after
    anything that happened in between, leaves every method-request inbox
    empty again. *)
Theorem disconnect_purge_depends_only_on_new_state (c : Client) (w : World) :
  constructed c → reachable_from c w →
  (on_connected (_pipeline c) = Some h_on_state_change ∧
   on_disconnected (_pipeline c) = on_connected (_pipeline c)) ∧
  (on_connected (pipeline w) = Some h_on_state_change ∧
   on_disconnected (pipeline w) = on_connected (pipeline w)) ∧
  (∀ new_state : string,
     notify (n_connection_state via_on_connected new_state) w =
     notify (n_connection_state via_on_disconnected new_state) w) ∧
  (∀ via : state_slot,
     inbox_manager (notify (n_connection_state via "disconnected") w) =
     clear_all_method_requests (inbox_manager w)) ∧
  (∀ (via1 via2 : state_slot) (w2 : World),
     rtc world_step (notify (n_connection_state via1 "disconnected") w) w2 →
     ∀ i : inbox, is_method_request_inbox i = true →
       queue i (inbox_manager (notify (n_connection_state via2 "disconnected") w2)) = []).
Proof.
  intros Hc Hw.
  destruct (constructed_slots c Hc) as (Hc1 & Hc2 & _).
  destruct (reachable_handlers c w Hc Hw) as (Hw1 & Hw2 & _).
  split; [by rewrite Hc2|]. split; [by rewrite Hw2|]. split; [|split].
  - intros new_state. by rewrite !(notify_connection_state c).
  - intros via. rewrite (notify_connection_state c) by done.
    by rewrite on_state_change_inbox_manager, decide_True.
  - intros via1 via2 w2 Hsteps i Hi.
    assert (reachable_from c w2) as Hw2'.
    { destruct Hw as (w0 & Hw0 & Hsteps0). exists w0. split; [done|].
      etrans; [exact Hsteps0|].
      eapply rtc_l; [|exact Hsteps].
      exact (step_outside
               (t_notifies (n_connection_state via1 "disconnected")) w). }
    rewrite (notify_connection_state c) by done.
    rewrite on_state_change_inbox_manager, decide_True by done.
    by apply queue_clear_all_method_requests.
Qed.

Lemma disconnect_purge_depends_only_on_new_state_witness :
  let c := GenericIoTHubClient.__init__ (new_pipeline (λ _, true) (λ _, not_yet)) in
  let request := PyMethodRequest "2" "reboot" in
  let w := notify (n_connection_state via_on_disconnected "disconnected") (fresh_world c) in
  let w2 := outside_step (t_notifies (n_method_request request)) w in
  queue GenericMethodInbox (inbox_manager w2) = [request] ∧
  queue GenericMethodInbox
    (inbox_manager (notify (n_connection_state via_on_connected "disconnected") w2)) = [].
Proof.
  cbn zeta.
  set (c := GenericIoTHubClient.__init__ (new_pipeline (λ _, true) (λ _, not_yet))).
  assert (constructed c) as Hc by (eexists; left; reflexivity).
  assert (reachable_from c (fresh_world c)) as Hw
    by (exists (fresh_world c); split; [reflexivity|apply rtc_refl]).
  destruct (disconnect_purge_depends_only_on_new_state c (fresh_world c) Hc Hw)
    as (_ & _ & _ & _ & Hagain).
  split; [reflexivity|].
  refine (Hagain via_on_disconnected via_on_connected _ _ GenericMethodInbox eq_refl).
  eapply rtc_l; [apply step_outside|apply rtc_refl].
Defined.

(** ** Handler registration *)

Lemma notify_foreign (n : notification) (w : World) :
  not_of_this_client (slot_of n (pipeline w)) → notify n w = w.
Proof.
  unfold notify. by destruct (slot_of n (pipeline w)) as [[]|].
Qed.

Lemma slots_inv (p q : Pipeline) :
  slots p = slots q →
  on_connected p = on_connected q ∧ on_disconnected p = on_disconnected q ∧
  on_method_request_received p = on_method_request_received q ∧
  on_c2d_message_received p = on_c2d_message_received q ∧
  on_input_message_received p = on_input_message_received q.
Proof. unfold slots. intros H. by injection H. Qed.

(** C10: which routing handlers a client has is fixed by its class when it
    is constructed and never changes afterwards.  All three constructors
    assign the method-request handler; only IoTHubDeviceClient assigns the
    c2d-message handler and only IoTHubModuleClient the input-message handler
    (the other constructors leave that slot as the pipeline had it); no
    coroutine of the client and nothing outside it reassigns a slot.  So a
    device client routes c2d messages and a module client input messages into
    the inbox manager, while, on a pipeline whose slot held no handler of the
    client, a c2d message changes nothing for a module client and an input
    message nothing for a device client. *)
Theorem handlers_registered_by_client_type (p : Pipeline) :
  let generic := GenericIoTHubClient.__init__ p in
  let device := IoTHubDeviceClient.__init__ p in
  let module := IoTHubModuleClient.__init__ p in
  (∀ c : Client, constructed c →
     on_method_request_received (_pipeline c) = Some h_route_method_request) ∧
  (on_c2d_message_received (_pipeline device) = Some h_route_c2d_message ∧
   on_c2d_message_received (_pipeline generic) = on_c2d_message_received p ∧
   on_c2d_message_received (_pipeline module) = on_c2d_message_received p) ∧
  (on_input_message_received (_pipeline module) = Some h_route_input_message ∧
   on_input_message_received (_pipeline generic) = on_input_message_received p ∧
   on_input_message_received (_pipeline device) = on_input_message_received p) ∧
  (∀ (c : Client) (w : World),
     reachable_from c w → slots (pipeline w) = slots (_pipeline c)) ∧
  (∀ (w : World) (message : pyobj), reachable_from device w →
     inbox_manager (notify (n_c2d_message message) w) =
     route_c2d_message message (inbox_manager w)) ∧
  (∀ (w : World) (input_name : string) (message : pyobj), reachable_from module w →
     inbox_manager (notify (n_input_message input_name message) w) =
     route_input_message input_name message (inbox_manager w)) ∧
  (not_of_this_client (on_c2d_message_received p) →
   ∀ (w : World) (message : pyobj), reachable_from module w →
     notify (n_c2d_message message) w = w) ∧
  (not_of_this_client (on_input_message_received p) →
   ∀ (w : World) (input_name : string) (message : pyobj), reachable_from device w →
     notify (n_input_message input_name message) w = w).
Proof.
  cbn zeta. split; [|split; [|split; [|split; [|split; [|split; [|split]]]]]].
  - intros c Hc. by destruct (constructed_slots c Hc) as (_ & _ & ->).
  - done.
  - done.
  - apply reachable_slots.
  - intros w message Hw. apply reachable_slots, slots_inv in Hw.
    destruct Hw as (_ & _ & _ & Hs & _). unfold notify. cbn [slot_of].
    by rewrite Hs.
  - intros w input_name message Hw. apply reachable_slots, slots_inv in Hw.
    destruct Hw as (_ & _ & _ & _ & Hs). unfold notify. cbn [slot_of].
    by rewrite Hs.
  - intros Hp w message Hw. apply reachable_slots, slots_inv in Hw.
    destruct Hw as (_ & _ & _ & Hs & _). apply notify_foreign.
    cbn [slot_of]. by rewrite Hs.
  - intros Hp w input_name message Hw. apply reachable_slots, slots_inv in Hw.
    destruct Hw as (_ & _ & _ & _ & Hs). apply notify_foreign.
    cbn [slot_of]. by rewrite Hs.
Qed.

Lemma handlers_registered_by_client_type_witness :
  let p := new_pipeline (λ _, false) (λ _, not_yet) in
  let w :=
    world_of (run (GenericIoTHubClient.send_d2c_message (PyStr "reading"))
                (fresh_world (IoTHubModuleClient.__init__ p))) in
  notify (n_c2d_message (PyStr "hello")) w = w ∧
  inbox_manager (notify (n_input_message "in1" (PyStr "hello")) w) =
  route_input_message "in1" (PyStr "hello") (inbox_manager w).
Proof.
  cbn zeta.
  set (p := new_pipeline (λ _, false) (λ _, not_yet)).
  set (w0 := fresh_world (IoTHubModuleClient.__init__ p)).
  assert (reachable_from (IoTHubModuleClient.__init__ p)
            (world_of (run (GenericIoTHubClient.send_d2c_message (PyStr "reading")) w0)))
    as Hw.
  { exists w0. split; [reflexivity|]. eapply rtc_l; [|apply rtc_refl].
    exact (step_coro (GenericIoTHubClient.send_d2c_message (PyStr "reading")) w0). }
  destruct (handlers_registered_by_client_type p)
    as (_ & _ & _ & _ & _ & Hinput & Hc2d & _).
  split.
  - exact (Hc2d I _ (PyStr "hello") Hw).
  - exact (Hinput _ "in1" (PyStr "hello") Hw).
Defined.

(** ** Two runs, step by step *)

(** connect() on a transport that confirms later: the caller is suspended on
    the completion, and runs to the end once the callback has fired. *)
Example connect_resumes_after_callback :
  let w := fresh_world
             (GenericIoTHubClient.__init__ (new_pipeline (λ _, false) (λ _, not_yet))) in
  ∃ (w1 : World) (rest : coro unit),
    run GenericIoTHubClient.connect w = Suspended (on_completion 0) w1 rest ∧
    log w1 = ["Connecting to Hub..."] ∧
    ∃ w2 : World,
      run rest (outside_step (t_fires 0 Success) w1) = Returned tt w2 ∧
      log w2 = ["Connecting to Hub..."; "Successfully connected to Hub"].
Proof.
  cbn zeta. eexists _, _. split; [reflexivity|]. split; [reflexivity|].
  eexists. split; reflexivity.
Qed.

(** A method request named "reboot" goes to the generic inbox while nobody
    has asked for that name, and a disconnect drops it while a queued c2d
    message stays. *)
Example disconnect_keeps_c2d_messages :
  let w0 := fresh_world
              (IoTHubDeviceClient.__init__ (new_pipeline (λ _, true) (λ _, not_yet))) in
  let w1 := notify (n_method_request (PyMethodRequest "7" "reboot")) w0 in
  let w2 := notify (n_c2d_message (PyStr "hello")) w1 in
  let w3 := notify (n_connection_state via_on_disconnected "disconnected") w2 in
  queue GenericMethodInbox (inbox_manager w2) = [PyMethodRequest "7" "reboot"] ∧
  (∃ w4 : World,
     run IoTHubDeviceClient.receive_c2d_message w3 = Returned (PyStr "hello") w4) ∧
  (∃ (w4 : World) (rest : coro pyobj),
     run (GenericIoTHubClient.receive_method_request None) w3
     = Suspended (on_inbox_get GenericMethodInbox) w4 rest).
Proof.
  cbn zeta. split; [reflexivity|]. split.
  - eexists. reflexivity.
  - eexists _, _. reflexivity.
Qed.

(** ** More on the bridged operations *)

Lemma bridged_tail_awaits (msg : string) (c : pipeline_call) (w : World) :
  let r := run (callback ← perform (NewAwaitableCallback msg);
                perform (EmulateAsync c callback);;
                perform (Completion callback)) w in
  let cb := length (callbacks w) in
  signal_of cb (world_of r) = Some (signal_after c w) ∧
  match r with
  | Returned _ w' => signal_of cb w' = Some (Fulfilled Success)
  | Raised e w' => signal_of cb w' = Some (Fulfilled (Failure e))
  | Suspended s w' rest =>
      s = on_completion cb ∧ signal_of cb w' = Some Pending ∧
      ∀ w'' : World,
        run rest w'' =
        match signal_of cb w'' with
        | Some (Fulfilled Success) => Returned tt w''
        | Some (Fulfilled (Failure e)) => Raised e w''
        | _ => Suspended (on_completion cb) w'' rest
        end
  end.
Proof.
  intros r cb. subst r. rewrite run_bridged_tail.
  set (w1 := set_callbacks _ w).
  assert (signal_of cb (dispatch c cb w1) = Some (signal_after c w)) as Hsig.
  { unfold cb, w1. by rewrite signal_of_dispatch by apply signal_of_new. }
  fold cb. unfold signal_after in *.
  destruct (respond (pipeline w) c) as [|[|e]]; cbn [world_of];
    (split; [exact Hsig|]); try exact Hsig.
  split; [done|]. split; [exact Hsig|].
  intros w''. apply run_completion.
Qed.

Lemma callbacks_dispatch_new (msg : string) (c : pipeline_call) (w : World) :
  callbacks
    (dispatch c (length (callbacks w))
       (set_callbacks
          (callbacks w ++ [{| sync_callback := msg; future := Pending |}]) w))
  = callbacks w ++ [{| sync_callback := msg; future := signal_after c w |}].
Proof.
  unfold dispatch, signal_after.
  change (pipeline (set_callbacks _ w)) with (pipeline w).
  destruct (respond (pipeline w) c) as [|o]; [done|].
  unfold fire. cbn. rewrite list_lookup_middle by done. cbn.
  rewrite insert_app_r_alt by done. by rewrite Nat.sub_diag.
Qed.

Lemma run_send_to_output_on_other (w : World) (message : pyobj) (name : string) :
  isinstance_Message message = false →
  run (IoTHubModuleClient.send_to_output message name) w =
  run (IoTHubModuleClient.send_to_output (PyMessage (length (heap w))) name)
    (set_heap (heap w ++ [Message__init__ message]) w).
Proof.
  intros Hm. unfold IoTHubModuleClient.send_to_output.
  rewrite (run_bind _ _ w), (run_bind _ _ (set_heap _ w)), !run_normalise, Hm. done.
Qed.

(** send_method_response bridges one call whose argument is the caller's
    value as it was given, whatever it is: nothing is converted to a Message,
    no object is allocated or assigned to; and the caller is resumed only by
    the callback's completion. *)
Theorem send_method_response_passes_response_through
    (w : World) (method_response : pyobj) :
  suspends_until_completion (call_send_method_response method_response)
    (GenericIoTHubClient.send_method_response method_response) w ∧
  heap (world_of (run (GenericIoTHubClient.send_method_response method_response) w))
  = heap w.
Proof.
  unfold suspends_until_completion, GenericIoTHubClient.send_method_response.
  rewrite run_bind. cbn [perform run handle]. split.
  - by apply bridged_tail_suspends_until_completion.
  - rewrite world_of_bridged_tail.
    exact (proj1 (proj2 (dispatch_frame _ _ _))).
Qed.

(** send_d2c_message is resumed only by the completion of the callback it
    passed along with the message: it returns after a confirmed success,
    raises the failure the callback reported, and stays suspended while the
    callback has not fired. *)
Theorem send_d2c_message_awaits_completion (w : World) (message : pyobj) :
  awaits_its_callback (call_send_d2c_message (normalised (heap w) message))
    (GenericIoTHubClient.send_d2c_message message) w.
Proof.
  unfold awaits_its_callback, GenericIoTHubClient.send_d2c_message, normalised.
  rewrite run_bind, run_normalise.
  destruct (isinstance_Message message);
    rewrite run_bind; cbn [perform run handle];
    exact (bridged_tail_awaits _ _ (logger_info _ _)).
Qed.

(** send_to_output is resumed only by the completion of the callback it
    passed along with the envelope, in the same three ways. *)
Theorem send_to_output_awaits_completion
    (w : World) (message : pyobj) (name : string) :
  awaits_its_callback (call_send_output_event (normalised (heap w) message))
    (IoTHubModuleClient.send_to_output message name) w.
Proof.
  unfold awaits_its_callback, normalised.
  destruct (isinstance_Message message) eqn:Hm.
  - destruct message as [| | | |l]; try done.
    unfold IoTHubModuleClient.send_to_output.
    rewrite run_bind, run_normalise. cbn [isinstance_Message].
    rewrite run_bind. cbn [perform run handle].
    rewrite run_bind. cbn [perform run handle].
    exact (bridged_tail_awaits _ _ (logger_info _ _)).
  - rewrite run_send_to_output_on_other by done.
    unfold IoTHubModuleClient.send_to_output.
    rewrite run_bind, run_normalise. cbn [isinstance_Message].
    rewrite run_bind. cbn [perform run handle].
    rewrite run_bind. cbn [perform run handle].
    exact (bridged_tail_awaits _ _ (logger_info _ _)).
Qed.

(** When the payload is not a Message, send_to_output allocates exactly one
    envelope, holding the payload and the output name, after the objects
    that exist, and assigns to none of those. *)
Theorem send_to_output_wraps_payload
    (w : World) (message : pyobj) (name : string) :
  isinstance_Message message = false →
  heap (world_of (run (IoTHubModuleClient.send_to_output message name) w)) =
  heap w ++ [{| data := message; output_name := Some name |}].
Proof.
  intros Hm. rewrite send_to_output_on_other by done.
  destruct (send_to_output_on_Message
              (set_heap (heap w ++ [Message__init__ message]) w)
              (length (heap w)) name) as [-> _].
  cbn [heap set_heap].
  rewrite alter_app_r_alt by done. by rewrite Nat.sub_diag.
Qed.

Lemma send_to_output_wraps_payload_witness :
  heap (world_of
          (run (IoTHubModuleClient.send_to_output (PyInt 21) "alerts")
             (set_heap [{| data := PyStr "kept"; output_name := None |}]
                (fresh_world
                   (IoTHubModuleClient.__init__
                      (new_pipeline (λ _, false) (λ _, not_yet)))))))
  = [{| data := PyStr "kept"; output_name := None |};
     {| data := PyInt 21; output_name := Some "alerts" |}].
Proof.
  exact (send_to_output_wraps_payload
           (set_heap [{| data := PyStr "kept"; output_name := None |}]
              (fresh_world
                 (IoTHubModuleClient.__init__
                    (new_pipeline (λ _, false) (λ _, not_yet)))))
           (PyInt 21) "alerts" eq_refl).
Defined.

Lemma send_d2c_message_on_Message (w : World) (l : loc) :
  let w' :=
    world_of (run (GenericIoTHubClient.send_d2c_message (PyMessage l)) w) in
  heap w' = heap w ∧
  calls_since w w' =
    [{| op := call_send_d2c_message (PyMessage l);
        callback := length (callbacks w);
        envelope := heap w !! l |}].
Proof.
  unfold GenericIoTHubClient.send_d2c_message.
  rewrite run_bind, run_normalise. cbn [isinstance_Message].
  rewrite run_bind. cbn [perform run handle].
  rewrite world_of_bridged_tail.
  set (w1 := set_callbacks _ _).
  destruct (dispatch_frame (call_send_d2c_message (PyMessage l))
              (length (callbacks w)) w1) as (_ & Hh & _ & Hr).
  cbn zeta. change (callbacks (logger_info _ _)) with (callbacks w).
  rewrite Hh. split; [done|]. by apply calls_since_one.
Qed.

Lemma callbacks_send_to_output_on_Message (w : World) (l : loc) (name : string) :
  callbacks
    (world_of (run (IoTHubModuleClient.send_to_output (PyMessage l) name) w))
  = callbacks w ++
      [{| sync_callback := "Successfully sent message to output: " +:+ name;
          future := signal_after (call_send_output_event (PyMessage l)) w |}].
Proof.
  unfold IoTHubModuleClient.send_to_output.
  rewrite run_bind, run_normalise. cbn [isinstance_Message].
  rewrite run_bind. cbn [perform run handle].
  rewrite run_bind. cbn [perform run handle].
  rewrite world_of_bridged_tail.
  exact (callbacks_dispatch_new _ _ (logger_info _ (set_heap _ w))).
Qed.

(** The output name send_to_output assigns stays on the caller's Message:
    when the same object is then sent with send_d2c_message, which assigns
    nothing, the envelope the pipeline gets still carries that output name;
    the second operation has a callback of its own. *)
Theorem output_name_persists_into_send_d2c_message
    (w : World) (l : loc) (m : Message) (name : string) :
  heap w !! l = Some m →
  let w1 :=
    world_of (run (IoTHubModuleClient.send_to_output (PyMessage l) name) w) in
  let w2 :=
    world_of (run (GenericIoTHubClient.send_d2c_message (PyMessage l)) w1) in
  calls_since w1 w2 =
    [{| op := call_send_d2c_message (PyMessage l);
        callback := S (length (callbacks w));
        envelope := Some {| data := data m; output_name := Some name |} |}] ∧
  heap w2 !! l = Some {| data := data m; output_name := Some name |}.
Proof.
  intros Hl w1 w2.
  destruct (send_to_output_on_Message w l name) as [Hh1 _].
  destruct (send_d2c_message_on_Message w1 l) as [Hh2 Hc2].
  fold w1 in Hh1. fold w2 in Hh2, Hc2.
  assert (heap w1 !! l = Some {| data := data m; output_name := Some name |}) as Hl1
    by (by rewrite Hh1, list_lookup_alter_eq, Hl).
  assert (length (callbacks w1) = S (length (callbacks w))) as Hn.
  { unfold w1. rewrite callbacks_send_to_output_on_Message, length_app. cbn. lia. }
  split.
  - by rewrite Hc2, Hl1, Hn.
  - by rewrite Hh2.
Qed.

Lemma output_name_persists_into_send_d2c_message_witness :
  let w :=
    set_heap [{| data := PyStr "reading"; output_name := None |}]
      (fresh_world
         (IoTHubModuleClient.__init__
            (new_pipeline (λ _, false) (λ _, calls_back Success)))) in
  let w1 :=
    world_of (run (IoTHubModuleClient.send_to_output (PyMessage 0) "alerts") w) in
  let w2 :=
    world_of (run (GenericIoTHubClient.send_d2c_message (PyMessage 0)) w1) in
  calls_since w1 w2 =
    [{| op := call_send_d2c_message (PyMessage 0);
        callback := 1;
        envelope := Some {| data := PyStr "reading"; output_name := Some "alerts" |} |}] ∧
  heap w2 !! 0 = Some {| data := PyStr "reading"; output_name := Some "alerts" |}.
Proof.
  exact (output_name_persists_into_send_d2c_message
           (set_heap [{| data := PyStr "reading"; output_name := None |}]
              (fresh_world
                 (IoTHubModuleClient.__init__
                    (new_pipeline (λ _, false) (λ _, calls_back Success)))))
           0 {| data := PyStr "reading"; output_name := None |} "alerts" eq_refl).
Defined.

(** Sending one Message to two outputs in a row: the second send_to_output
    overwrites the output name the first one assigned, on the same object;
    the data stays and nothing is allocated. *)
Theorem send_to_output_last_name_wins
    (w : World) (l : loc) (m : Message) (first second : string) :
  heap w !! l = Some m →
  let w1 :=
    world_of (run (IoTHubModuleClient.send_to_output (PyMessage l) first) w) in
  let w2 :=
    world_of (run (IoTHubModuleClient.send_to_output (PyMessage l) second) w1) in
  heap w2 = <[l := {| data := data m; output_name := Some second |}]> (heap w) ∧
  calls_since w1 w2 =
    [{| op := call_send_output_event (PyMessage l);
        callback := S (length (callbacks w));
        envelope := Some {| data := data m; output_name := Some second |} |}].
Proof.
  intros Hl w1 w2.
  destruct (send_to_output_on_Message w l first) as [Hh1 _].
  destruct (send_to_output_on_Message w1 l second) as [Hh2 Hc2].
  fold w1 in Hh1. fold w2 in Hh2, Hc2.
  assert (length (callbacks w1) = S (length (callbacks w))) as Hn.
  { unfold w1. rewrite callbacks_send_to_output_on_Message, length_app. cbn. lia. }
  split.
  - rewrite Hh2, Hh1. apply list_eq. intros i.
    destruct (decide (i = l)) as [->|Hne].
    + rewrite !list_lookup_alter_eq, Hl. cbn.
      rewrite list_lookup_insert_eq; [done|]. by eapply lookup_lt_Some.
    + by rewrite !list_lookup_alter_ne, list_lookup_insert_ne.
  - rewrite Hc2, Hh1, list_lookup_alter_eq, Hl, Hn. done.
Qed.

Lemma send_to_output_last_name_wins_witness :
  let w :=
    set_heap [{| data := PyStr "reading"; output_name := None |}]
      (fresh_world
         (IoTHubModuleClient.__init__
            (new_pipeline (λ _, false) (λ _, calls_back Success)))) in
  heap
    (world_of
       (run (IoTHubModuleClient.send_to_output (PyMessage 0) "second")
          (world_of
             (run (IoTHubModuleClient.send_to_output (PyMessage 0) "first") w))))
  = [{| data := PyStr "reading"; output_name := Some "second" |}].
Proof.
  exact (proj1 (send_to_output_last_name_wins
                  (set_heap [{| data := PyStr "reading"; output_name := None |}]
                     (fresh_world
                        (IoTHubModuleClient.__init__
                           (new_pipeline (λ _, false) (λ _, calls_back Success)))))
                  0 {| data := PyStr "reading"; output_name := None |}
                  "first" "second" eq_refl)).
Defined.

(** ** More on receiving *)

Lemma queue_ensure_any (i j : inbox) (im : InboxManager) :
  queue j (ensure i im) = queue j im.
Proof.
  destruct i as [|n| |n]; cbn; try done.
  - destruct (named_method_request_inboxes im !! n) eqn:H; [done|].
    destruct j as [|n'| |n']; cbn; try done.
    destruct (decide (n' = n)) as [->|Hne].
    + by rewrite lookup_insert_eq, H.
    + by rewrite lookup_insert_ne.
  - destruct (input_message_inboxes im !! n) eqn:H; [done|].
    destruct j as [|n'| |n']; cbn; try done.
    destruct (decide (n' = n)) as [->|Hne].
    + by rewrite lookup_insert_eq, H.
    + by rewrite lookup_insert_ne.
Qed.

Lemma queue_set_queue_ne (i j : inbox) (q : list pyobj) (im : InboxManager) :
  j ≠ i → queue j (set_queue i q im) = queue j im.
Proof.
  intros Hne. destruct i as [|n| |n], j as [|n'| |n']; cbn; try done.
  - rewrite lookup_insert_ne; [done|]. congruence.
  - rewrite lookup_insert_ne; [done|]. congruence.
Qed.

Lemma enable_if_needed_world (f : feature) (w : World) :
  ∃ w1 : World,
    run (if negb (feature_enabled (pipeline w) f)
         then GenericIoTHubClient._enable_feature f else mret tt) w
    = Returned tt w1 ∧
    inbox_manager w1 = inbox_manager w ∧
    heap w1 = heap w ∧
    callbacks w `prefix_of` callbacks w1.
Proof.
  destruct (feature_enabled (pipeline w) f); cbn [negb].
  - by exists w.
  - rewrite run_enable_feature. eexists. split; [done|].
    set (w0 := logger_info _ w).
    destruct (dispatch_frame (call_enable_feature f) (length (callbacks w))
                (set_callbacks
                   (callbacks w ++
                      [{| sync_callback :=
                            "Successfully enabled feature:" +:+ feature_text f;
                          future := Pending |}]) w0))
      as (-> & -> & _).
    split; [done|]. split; [done|].
    rewrite (callbacks_dispatch_new _ (call_enable_feature f) w0).
    by apply prefix_app_r.
Qed.

Lemma takes_only_from_intro
    (f : feature) (i : inbox) (get : coro inbox) (m1 m2 : string) (w : World) :
  (∀ w0 : World,
     run get w0 = Returned i (set_inbox_manager (ensure i (inbox_manager w0)) w0)) →
  takes_only_from i
    (enabled ← perform (FeatureEnabled f);
     (if negb enabled then GenericIoTHubClient._enable_feature f else mret tt);;
     inbox ← get;
     perform (LoggerInfo m1);;
     item ← perform (InboxGet inbox);
     perform (LoggerInfo m2);; mret item) w.
Proof.
  intros Hget. unfold takes_only_from.
  rewrite run_bind. cbn [perform run handle].
  rewrite run_bind.
  destruct (enable_if_needed_world f w) as (w1 & -> & Him & Hheap & Hcbs).
  rewrite run_bind, Hget, run_wait.
  change (inbox_manager (set_inbox_manager ?im _)) with im.
  rewrite queue_ensure, Him.
  destruct (queue i (inbox_manager w)) as [|item q] eqn:Hq; cbn [world_of tail].
  - change (inbox_manager (logger_info _ (set_inbox_manager ?im _))) with im.
    rewrite queue_ensure, Hq. split; [done|].
    split; [by intros j _; rewrite queue_ensure_any|]. done.
  - change (inbox_manager (logger_info _ (set_inbox_manager ?im _))) with im.
    rewrite queue_set_queue. split; [done|].
    split; [|done].
    intros j Hne. by rewrite queue_set_queue_ne, queue_ensure_any.
Qed.

(** A receive operation takes at most the oldest item, and only off the
    inbox of its own category and key: the queues of all other inboxes, the
    Message objects and the callbacks of operations in flight are the same
    afterwards, whether it returned or is suspended. *)
Theorem receive_takes_only_from_its_inbox
    (w : World) (method_name : option string) (input_name : string) :
  takes_only_from (method_request_inbox method_name)
    (GenericIoTHubClient.receive_method_request method_name) w ∧
  takes_only_from C2DInbox IoTHubDeviceClient.receive_c2d_message w ∧
  takes_only_from (InputInbox input_name)
    (IoTHubModuleClient.receive_input_message input_name) w.
Proof.
  split; [|split].
  - apply (takes_only_from_intro METHODS _ (perform (GetMethodRequestInbox method_name))).
    intros w0. by destruct method_name.
  - by apply (takes_only_from_intro C2D_MSG _ (perform GetC2DMessageInbox)).
  - by apply (takes_only_from_intro INPUT_MSG _
                (perform (GetInputMessageInbox input_name))).
Qed.

Lemma receive_method_request_receives (w : World) (method_name : option string) :
  receives_from METHODS (method_request_inbox method_name)
    (GenericIoTHubClient.receive_method_request method_name) w.
Proof.
  apply (receives_from_intro METHODS _ (perform (GetMethodRequestInbox method_name))).
  intros w0. by destruct method_name.
Qed.

Lemma receive_c2d_message_receives (w : World) :
  receives_from C2D_MSG C2DInbox IoTHubDeviceClient.receive_c2d_message w.
Proof. by apply (receives_from_intro C2D_MSG _ (perform GetC2DMessageInbox)). Qed.

Lemma receive_input_message_receives (w : World) (input_name : string) :
  receives_from INPUT_MSG (InputInbox input_name)
    (IoTHubModuleClient.receive_input_message input_name) w.
Proof.
  by apply (receives_from_intro INPUT_MSG _ (perform (GetInputMessageInbox input_name))).
Qed.

(** After a notification with the state "disconnected", a constructed client
    has no method request left to hand out: receive_method_request is
    suspended on its inbox whatever was queued before, for every method name
    and for none; a c2d message that was queued before is still what
    receive_c2d_message returns. *)
Theorem receive_after_disconnect
    (c : Client) (w : World) (via : state_slot) :
  constructed c → reachable_from c w →
  let w' := notify (n_connection_state via "disconnected") w in
  (∀ method_name : option string,
     ∃ (w'' : World) (rest : coro pyobj),
       run (GenericIoTHubClient.receive_method_request method_name) w'
       = Suspended (on_inbox_get (method_request_inbox method_name)) w'' rest) ∧
  (∀ (message : pyobj) (q : list pyobj),
     c2d_message_inbox (inbox_manager w) = message :: q →
     ∃ w'' : World,
       run IoTHubDeviceClient.receive_c2d_message w' = Returned message w'' ∧
       c2d_message_inbox (inbox_manager w'') = q).
Proof.
  intros Hc Hw w'.
  assert (inbox_manager w' = clear_all_method_requests (inbox_manager w)) as Him.
  { unfold w'. rewrite (notify_connection_state c) by done.
    by rewrite on_state_change_inbox_manager, decide_True. }
  split.
  - intros method_name.
    destruct (receive_method_request_receives w' method_name) as [_ H].
    rewrite Him, queue_clear_all_method_requests in H by (by destruct method_name).
    destruct H as (w'' & rest & H & _). by exists w'', rest.
  - intros message q Hq.
    destruct (receive_c2d_message_receives w') as [_ H].
    rewrite Him in H. cbn [queue clear_all_method_requests c2d_message_inbox] in H.
    rewrite Hq in H. exact H.
Qed.

Lemma receive_after_disconnect_witness :
  let c := IoTHubDeviceClient.__init__ (new_pipeline (λ _, true) (λ _, not_yet)) in
  let w :=
    outside_step (t_notifies (n_c2d_message (PyStr "hello")))
      (outside_step (t_notifies (n_method_request (PyMethodRequest "1" "reboot")))
         (fresh_world c)) in
  let w' := notify (n_connection_state via_on_disconnected "disconnected") w in
  (∃ (w'' : World) (rest : coro pyobj),
     run (GenericIoTHubClient.receive_method_request None) w'
     = Suspended (on_inbox_get GenericMethodInbox) w'' rest) ∧
  (∃ w'' : World,
     run IoTHubDeviceClient.receive_c2d_message w' = Returned (PyStr "hello") w'' ∧
     c2d_message_inbox (inbox_manager w'') = []).
Proof.
  cbn zeta.
  set (c := IoTHubDeviceClient.__init__ (new_pipeline (λ _, true) (λ _, not_yet))).
  set (w1 := outside_step _ (fresh_world c)).
  set (w := outside_step _ w1).
  assert (constructed c) as Hc by (eexists; right; left; reflexivity).
  assert (reachable_from c w) as Hw.
  { exists (fresh_world c). split; [reflexivity|].
    eapply rtc_l; [apply step_outside|]. eapply rtc_l; [apply step_outside|].
    apply rtc_refl. }
  destruct (receive_after_disconnect c w via_on_disconnected Hc Hw) as [Hm Hc2d].
  split.
  - exact (Hm None).
  - exact (Hc2d (PyStr "hello") [] eq_refl).
Defined.

(** A client that has just been constructed has an inbox manager of its own
    with nothing queued: whatever the pipeline it was given has been through,
    its receive operations are suspended on their inbox. *)
Theorem first_receive_of_a_new_client_suspends
    (c : Client) (w : World) (method_name : option string) (input_name : string) :
  constructed c → self w = c →
  (∃ (w' : World) (rest : coro pyobj),
     run (GenericIoTHubClient.receive_method_request method_name) w
     = Suspended (on_inbox_get (method_request_inbox method_name)) w' rest) ∧
  (∃ (w' : World) (rest : coro pyobj),
     run IoTHubDeviceClient.receive_c2d_message w
     = Suspended (on_inbox_get C2DInbox) w' rest) ∧
  (∃ (w' : World) (rest : coro pyobj),
     run (IoTHubModuleClient.receive_input_message input_name) w
     = Suspended (on_inbox_get (InputInbox input_name)) w' rest).
Proof.
  intros Hc Hself.
  assert (inbox_manager w = InboxManager__init__) as Him.
  { unfold inbox_manager. rewrite Hself. by destruct Hc as (p & [->|[->| ->]]). }
  split; [|split].
  - destruct (receive_method_request_receives w method_name) as [_ H].
    rewrite Him in H.
    assert (queue (method_request_inbox method_name) InboxManager__init__ = []) as Hq
      by (by destruct method_name).
    rewrite Hq in H. destruct H as (w' & rest & H & _). by exists w', rest.
  - destruct (receive_c2d_message_receives w) as [_ H].
    rewrite Him in H. destruct H as (w' & rest & H & _). by exists w', rest.
  - destruct (receive_input_message_receives w input_name) as [_ H].
    rewrite Him in H. destruct H as (w' & rest & H & _). by exists w', rest.
Qed.

Lemma first_receive_of_a_new_client_suspends_witness :
  ∃ (w' : World) (rest : coro pyobj),
    run (GenericIoTHubClient.receive_method_request (Some "reboot"))
      (fresh_world
         (IoTHubModuleClient.__init__ (new_pipeline (λ _, true) (λ _, not_yet))))
    = Suspended (on_inbox_get (NamedMethodInbox "reboot")) w' rest.
Proof.
  exact (proj1 (first_receive_of_a_new_client_suspends
                  (IoTHubModuleClient.__init__
                     (new_pipeline (λ _, true) (λ _, not_yet)))
                  (fresh_world
                     (IoTHubModuleClient.__init__
                        (new_pipeline (λ _, true) (λ _, not_yet))))
                  (Some "reboot") "in1"
                  (ex_intro _ (new_pipeline (λ _, true) (λ _, not_yet))
                     (or_intror (or_intror eq_refl)))
                  eq_refl)).
Defined.

(** ** Operations in flight *)

Lemma creates_one_callback_tail (m0 msg : string) (c : pipeline_call) (w : World) :
  ∃ own : AwaitableCallback,
    callbacks
      (world_of
         (run (callback ← perform (NewAwaitableCallback msg);
               perform (EmulateAsync c callback);;
               perform (Completion callback)) (logger_info m0 w)))
    = callbacks w ++ [own].
Proof.
  rewrite world_of_bridged_tail. eexists.
  exact (callbacks_dispatch_new _ _ (logger_info m0 w)).
Qed.

(** Each of connect, disconnect, send_d2c_message, send_method_response and
    send_to_output creates exactly one awaitable callback, after the ones
    that exist, and changes none of those: an operation never completes or
    reuses the callback of another one that is still in flight. *)
Theorem bridged_operations_create_one_callback
    (w : World) (message method_response : pyobj) (name : string) :
  creates_one_callback GenericIoTHubClient.connect w ∧
  creates_one_callback GenericIoTHubClient.disconnect w ∧
  creates_one_callback (GenericIoTHubClient.send_d2c_message message) w ∧
  creates_one_callback (GenericIoTHubClient.send_method_response method_response) w ∧
  creates_one_callback (IoTHubModuleClient.send_to_output message name) w.
Proof.
  unfold creates_one_callback. repeat split.
  - unfold GenericIoTHubClient.connect. rewrite run_bind. cbn [perform run handle].
    apply creates_one_callback_tail.
  - unfold GenericIoTHubClient.disconnect. rewrite run_bind. cbn [perform run handle].
    apply creates_one_callback_tail.
  - unfold GenericIoTHubClient.send_d2c_message.
    rewrite run_bind, run_normalise.
    destruct (isinstance_Message message);
      rewrite run_bind; cbn [perform run handle].
    + apply creates_one_callback_tail.
    + exact (creates_one_callback_tail _ _ _ (set_heap _ w)).
  - unfold GenericIoTHubClient.send_method_response.
    rewrite run_bind. cbn [perform run handle].
    apply creates_one_callback_tail.
  - destruct (isinstance_Message message) eqn:Hm.
    + destruct message as [| | | |l]; try done. eexists.
      apply callbacks_send_to_output_on_Message.
    + rewrite send_to_output_on_other by done. eexists.
      exact (callbacks_send_to_output_on_Message (set_heap _ w) _ name).
Qed.

Lemma notify_frame (n : notification) (w : World) :
  callbacks (notify n w) = callbacks w ∧
  heap (notify n w) = heap w ∧
  pipeline (notify n w) = pipeline w.
Proof.
  unfold notify. destruct (slot_of n (pipeline w)) as [h|]; [|done].
  destruct h, n; try done. cbn.
  unfold GenericIoTHubClient._on_state_change. by destruct (String.eqb _ _).
Qed.

Lemma signal_of_fire_ne (cb cb' : cb_ref) (o : outcome) (w : World) :
  cb' ≠ cb → signal_of cb (fire cb' o w) = signal_of cb w.
Proof.
  intros Hne. unfold fire.
  destruct (callbacks w !! cb') as [[msg [|]]|]; try done.
  unfold signal_of. cbn. by rewrite list_lookup_insert_ne.
Qed.

Lemma signal_of_outside_step (ev : event) (cb : cb_ref) (w : World) :
  (∀ o : outcome, ev ≠ t_fires cb o) →
  signal_of cb (outside_step ev w) = signal_of cb w.
Proof.
  intros Hev. destruct ev as [cb' o|n| | | |]; try done.
  - apply signal_of_fire_ne. intros ->. by apply (Hev o).
  - unfold signal_of. cbn. by destruct (notify_frame n w) as (-> & _).
Qed.

(** connect() and disconnect() are resumed by their own callback only.  When
    one of them is suspended, nothing else that happens outside gets it
    going: not a notification from the pipeline (a state change through
    on_connected or on_disconnected, an inbound event), not the callback of
    another operation, not a change of a feature flag or of a Message.  The
    coroutine is still suspended on the same completion afterwards. *)
Theorem only_its_callback_resumes_connect
    (w0 w : World) (s : suspension) (rest : coro unit) (ev : event) :
  run GenericIoTHubClient.connect w0 = Suspended s w rest ∨
  run GenericIoTHubClient.disconnect w0 = Suspended s w rest →
  (∀ o : outcome, ev ≠ t_fires (length (callbacks w0)) o) →
  s = on_completion (length (callbacks w0)) ∧
  run rest (outside_step ev w) = Suspended s (outside_step ev w) rest.
Proof.
  intros Hrun Hev.
  assert (s = on_completion (length (callbacks w0)) ∧
          signal_of (length (callbacks w0)) w = Some Pending ∧
          ∀ w'' : World,
            run rest w'' =
            match signal_of (length (callbacks w0)) w'' with
            | Some (Fulfilled Success) => Returned tt w''
            | Some (Fulfilled (Failure e)) => Raised e w''
            | _ => Suspended (on_completion (length (callbacks w0))) w'' rest
            end) as (-> & Hpending & Hrest).
  { destruct Hrun as [Hrun|Hrun].
    - pose proof (bridged_tail_suspends_until_completion
                    "Successfully connected to Hub" call_connect w0
                    (logger_info "Connecting to Hub..." w0)
                    eq_refl eq_refl eq_refl) as [_ H].
      unfold GenericIoTHubClient.connect in Hrun.
      rewrite run_bind in Hrun. cbn [perform run handle] in Hrun.
      cbn zeta in H. by rewrite Hrun in H.
    - pose proof (bridged_tail_suspends_until_completion
                    "Successfully disconnected from Hub" call_disconnect w0
                    (logger_info "Disconnecting from Hub..." w0)
                    eq_refl eq_refl eq_refl) as [_ H].
      unfold GenericIoTHubClient.disconnect in Hrun.
      rewrite run_bind in Hrun. cbn [perform run handle] in Hrun.
      cbn zeta in H. by rewrite Hrun in H. }
  split; [done|].
  by rewrite Hrest, signal_of_outside_step, Hpending.
Qed.

Lemma only_its_callback_resumes_connect_witness :
  let w0 :=
    fresh_world
      (GenericIoTHubClient.__init__ (new_pipeline (λ _, false) (λ _, not_yet))) in
  let w :=
    dispatch call_connect 0
      (set_callbacks
         [{| sync_callback := "Successfully connected to Hub"; future := Pending |}]
         (logger_info "Connecting to Hub..." w0)) in
  let ev := t_notifies (n_connection_state via_on_connected "connected") in
  run (perform (Completion 0)) (outside_step ev w)
  = Suspended (on_completion 0) (outside_step ev w) (perform (Completion 0)).
Proof.
  cbn zeta.
  refine (proj2
    (only_its_callback_resumes_connect
       (fresh_world
          (GenericIoTHubClient.__init__ (new_pipeline (λ _, false) (λ _, not_yet))))
       (dispatch call_connect 0
          (set_callbacks
             [{| sync_callback := "Successfully connected to Hub"; future := Pending |}]
             (logger_info "Connecting to Hub..."
                (fresh_world
                   (GenericIoTHubClient.__init__
                      (new_pipeline (λ _, false) (λ _, not_yet)))))))
       (on_completion 0) (perform (Completion 0))
       (t_notifies (n_connection_state via_on_connected "connected"))
       (or_introl eq_refl) _)).
  intros o H. discriminate H.
Defined.
